(** * Export of DVI files through dvipdfm and dvips

    A shallow embedding of [dviexport.cpp]: the classes [DVIExport],
    [DVIExportToPDF] and [DVIExportToPS], and the helpers [get_env_path]
    and [find_exe] of the anonymous namespace.

    Strings are [string]; the file system is a finite map from the path
    handed to [QFileInfo]/[QFile] to what is stored there; pointers that the
    code tests against 0 are [option]s; the dialogs, the environment and the
    other Qt/KDE services the code calls are the fields of a [Host]. *)

From Stdlib Require Import ZArith String Ascii List Bool Lia.
From stdpp Require Import gmap strings list fin_maps.
Import ListNotations.

Local Open Scope string_scope.
Local Open Scope Z_scope.
Local Open Scope list_scope.

(** ** The [QString] operations the code uses *)

Module QStr.

Definition isEmpty (s : string) : bool :=
  match s with EmptyString => true | String _ _ => false end.

(** [s.find(pat)]: the index of the first occurrence of [pat], or -1. *)
Definition find (pat s : string) : Z :=
  match String.index 0 pat s with
  | Some n => Z.of_nat n
  | None => -1
  end.

(** [s.left(n)]: the [n] leftmost characters; the entire string when [n]
    is negative or not smaller than the size. *)
Definition left (n : Z) (s : string) : string :=
  if (n <? 0) || (Z.of_nat (String.length s) <=? n) then s
  else String.substring 0 (Z.to_nat n) s.

(** [s.endsWith(suf)] *)
Definition endsWith (suf s : string) : bool :=
  let n := String.length s in
  let m := String.length suf in
  (m <=? n)%nat && String.eqb (String.substring (n - m) m s) suf.

(** [s.split(sep)] with the default [KeepEmptyParts]. *)
Fixpoint split (sep : ascii) (s : string) : list string :=
  match s with
  | EmptyString => [EmptyString]
  | String c rest =>
      if Ascii.eqb c sep then EmptyString :: split sep rest
      else match split sep rest with
           | [] => [String c EmptyString]
           | part :: parts => String c part :: parts
           end
  end.

(** The line feed of the message texts. *)
Definition nl : string := String (ascii_of_nat 10) EmptyString.

End QStr.

(** ** Documents and files *)

(** Modelled from the spec: the class [pageSize] behind the pointer
    [dvifile::suggestedPageSize] is declared outside this file; the spec
    describes it as a directive giving the physical page dimensions. *)
Record pageSize := {
  pageWidth : Z;
  pageHeight : Z;
}.

(** The members of [dvifile] that this file reads.  [total_pages] and
    [numberOfExternalNONPSFiles] are [quint16], [page_offset] is a
    [QVector<quint32>], [suggestedPageSize] a pointer that may be 0. *)
Record dvifile := {
  filename : string;
  total_pages : Z;
  page_offset : list Z;
  numberOfExternalNONPSFiles : Z;
  suggestedPageSize : option pageSize;
  dvi_Data : list Z;
}.

(** What is stored at a path: the permissions [QFileInfo] reports and,
    for a file written by [dvifile::saveAs], the document it holds. *)
Record File := {
  isReadable : bool;
  isExecutable : bool;
  content : option dvifile;
}.

Abbreviation FileSystem := (gmap string File).

Definition exists_ (fs : FileSystem) (path : string) : bool :=
  match fs !! path with Some _ => true | None => false end.

Definition readable (fs : FileSystem) (path : string) : bool :=
  match fs !! path with Some f => isReadable f | None => false end.

Definition executable (fs : FileSystem) (path : string) : bool :=
  match fs !! path with Some f => isExecutable f | None => false end.

(** The file [QTemporaryFile::open] leaves behind, and the file
    [dvifile::saveAs] writes. *)
Definition empty_file : File :=
  {| isReadable := true; isExecutable := false; content := None |}.

Definition saved_file (d : dvifile) : File :=
  {| isReadable := true; isExecutable := false; content := Some d |}.

(** ** The services of the host *)

Inductive ButtonCode := Continue | Cancel.

Record KPrinter := { printerName : string }.

(** Everything the code obtains from outside: the two preprocessor
    switches, [QFileInfo]'s path functions, the environment, the answers of
    the user to the two dialogs, the name [QTemporaryFile] picks, whether
    the operating system spawns the child, and the two operations of
    [dvifile] and [dviRenderer] that rewrite a document. *)
Record Host := {
  win32 : bool;
  use_qprocess : bool;
  isAbsolute : string -> bool;
  dirPath : string -> string;
  environ : gmap string string;
  getSaveFileName : string -> string -> string;
  warningContinueCancel : string -> ButtonCode;
  temporaryFileName : FileSystem -> string;
  process_start : string -> list string -> bool;
  renumber : dvifile -> dvifile;
  prescan_removePageSizeInfo : dvifile -> Z -> dvifile;
}.

(** ** What the user and the rest of the program observe *)

Inductive Event :=
| Sorry (text : string)
| Error (text : string)
| SaveFileDialog (suggested_name filter : string)
| OverwriteDialog (output_name : string)
| InfoDialog (text : string) (clear : bool)
| TemporaryFile (name : string)
| SaveAs (name : string)
| Remove (name : string)
| Spawn (command : string) (args : list string) (working_directory : string)
| KdError (text : string)
| Kill (command : string)
| PrintFiles (printer : KPrinter) (files : list string)
| ExportFinished.

(** The part of [dviRenderer] (the [parent]) that the export touches. *)
Record dviRenderer := {
  dviFile : option dvifile;
  current_page : Z;
  errorMsg : string;
}.

Record World := {
  fs : FileSystem;
  parent : dviRenderer;
  trace : list Event;
}.

Definition emit (e : Event) (w : World) : World :=
  {| fs := fs w; parent := parent w; trace := trace w ++ [e] |}.

Definition set_fs (f : FileSystem) (w : World) : World :=
  {| fs := f; parent := parent w; trace := trace w |}.

Definition set_parent (r : dviRenderer) (w : World) : World :=
  {| fs := fs w; parent := r; trace := trace w |}.

(** ** PathResolver: [get_env_path] and [find_exe] *)

Definition path_separator (h : Host) : ascii :=
  if win32 h then ";"%char else ":"%char.

(** [envname] is a [const char*]: [None] is the null pointer. *)
Definition get_env_path (h : Host) (envname : option string) : list string :=
  match envname with
  | None => []
  | Some name =>
      if QStr.isEmpty name then []
      else match environ h !! name with
           | None => []
           | Some envvar =>
               if QStr.isEmpty envvar then []
               else QStr.split (path_separator h) envvar
           end
  end.

(** The name [QFileInfo exe] is built from. *)
Definition exe_name (h : Host) (exe_ : string) : string :=
  if win32 h then (if QStr.endsWith ".exe" exe_ then exe_ else exe_ +:+ ".exe")
  else exe_.

(** The candidate tried for one entry of the search path. *)
Definition abs_exe (exe it : string) : string :=
  (if QStr.endsWith "/" it then it else it +:+ "/") +:+ exe.

(** The [for] loop of [find_exe]. *)
Fixpoint search_path (fs : FileSystem) (exe : string) (path : list string) : bool :=
  match path with
  | [] => false
  | it :: rest =>
      if exists_ fs (abs_exe exe it)
      then readable fs (abs_exe exe it) && executable fs (abs_exe exe it)
      else search_path fs exe rest
  end.

Definition find_exe (h : Host) (fs : FileSystem) (exe_ : string) : bool :=
  let exe := exe_name h exe_ in
  if isAbsolute h exe
  then exists_ fs exe && readable fs exe && executable fs exe
  else
    let path := get_env_path h (Some "PATH") in
    match path with
    | [] => false
    | _ => search_path fs exe path
    end.

(** ** The texts shown to the user ([i18n] is taken as the identity) *)

Module Msg.

Definition dvipdfm_missing : string :=
  "KDVI could not locate the program 'dvipdfm' on your computer. That program is "
  +:+ "essential for the export function to work. You can, however, convert "
  +:+ "the DVI-file to PDF using the print function of KDVI, but that will often "
  +:+ "produce documents which print ok, but are of inferior quality if viewed in the "
  +:+ "Acrobat Reader. It may be wise to upgrade to a more recent version of your "
  +:+ "TeX distribution which includes the 'dvipdfm' program." +:+ QStr.nl
  +:+ "Hint to the perplexed system administrator: KDVI uses the PATH environment variable "
  +:+ "when looking for programs.".

Definition dvips_missing : string :=
  "KDVI could not locate the program 'dvips' on your computer. That program is "
  +:+ "essential for the export function to work." +:+ QStr.nl
  +:+ "Hint to the perplexed system administrator: KDVI uses the PATH environment variable "
  +:+ "when looking for programs.".

Definition non_ps_graphics : string :=
  "<qt><P>This DVI file refers to external graphic files which are not in PostScript format, and cannot be handled by the "
  +:+ "<strong>dvips</strong> program that KDVI uses interally to print or to export to PostScript. The functionality that "
  +:+ "you require is therefore unavailable in this version of KDVI.</p>"
  +:+ "<p>As a workaround, you can use the <strong>File/Export As</strong>-Menu to save this file in PDF format, and then use "
  +:+ "a PDF viewer.</p>"
  +:+ "<p>The author of KDVI apologizes for the inconvenience. If enough users complain, the missing functionality might later "
  +:+ "be added.</p></qt>".

Definition overwrite (output_name : string) : string :=
  "The file " +:+ output_name +:+ QStr.nl +:+ "exists. Do you want to overwrite that file?".

Definition pdf_filter : string := "*.pdf|Portable Document Format (*.pdf)".
Definition ps_filter : string := "*.ps|PostScript (*.ps)".

Definition export_to_pdf (name : string) : string := "Export: " +:+ name +:+ " to PDF".
Definition export_to_ps (name : string) : string := "Export: " +:+ name +:+ " to PostScript".

Definition dvipdfm_failed : string :=
  "<qt>The external program 'dvipdfm', which was used to export the file, reported an error. "
  +:+ "You might wish to look at the <strong>document info dialog</strong> which you will "
  +:+ "find in the File-Menu for a precise error report.</qt>".

Definition dvips_failed : string :=
  "<qt>The external program 'dvips', which was used to export the file, reported an error. "
  +:+ "You might wish to look at the <strong>document info dialog</strong> which you will "
  +:+ "find in the File-Menu for a precise error report.</qt>".

End Msg.

(** ** The objects an export owns *)

(** The progress dialog: whether it is shown, its number of steps, its
    label, and whether its [finished()] signal is still connected to
    [abort_process]. *)
Record fontProgressDialog := {
  isVisible : bool;
  totalSteps : Z;
  labelText : string;
  finished_connected : bool;
}.

(** The child process: what it was started with and, once it has exited,
    what [KProcess::normalExit] and [KProcess::exitStatus] report. *)
Record Process := {
  command : string;
  args : list string;
  workingDirectory : string;
  normalExit : bool;
  exitStatus : Z;
}.

(** ** class [DVIExport] *)

Module DVIExport.

Record t := {
  started_ : bool;
  process_ : option Process;
  progress_ : option fontProgressDialog;
  error_message_ : string;
}.

(** [DVIExport::DVIExport] *)
Definition new : t :=
  {| started_ := false; process_ := None; progress_ := None;
     error_message_ := EmptyString |}.

Definition with_progress (d : option fontProgressDialog) (this : t) : t :=
  {| started_ := started_ this; process_ := process_ this; progress_ := d;
     error_message_ := error_message_ this |}.

Definition with_process (p : option Process) (this : t) : t :=
  {| started_ := started_ this; process_ := p; progress_ := progress_ this;
     error_message_ := error_message_ this |}.

(** [initialise_progress_dialog]; [assert(!progress_)] holds at both calls,
    which are made on an object fresh from [new]. *)
Definition initialise_progress_dialog (total_steps : Z) (label_text : string)
    (this : t) : t :=
  with_progress
    (Some {| isVisible := false; totalSteps := total_steps;
             labelText := label_text; finished_connected := true |})
    this.

(** [start]: the process object is created and kept in [process_] whether
    or not the child can be spawned; [started_] records the latter. *)
Definition start (h : Host) (command : string) (args : list string)
    (working_directory error_message : string) (this : t) (w : World) : t * World :=
  let p := {| command := command; args := args;
              workingDirectory := working_directory;
              normalExit := false; exitStatus := 0 |} in
  let w := emit (Spawn command args working_directory) w in
  if negb (process_start h command args)
  then ({| started_ := started_ this; process_ := Some p;
           progress_ := progress_ this; error_message_ := error_message |},
        emit (KdError (command +:+ " failed to start")) w)
  else ({| started_ := true; process_ := Some p;
           progress_ := progress_ this; error_message_ := error_message |}, w).

(** The child has exited: the library records how. *)
Definition process_exited (normal : bool) (status : Z) (this : t) : t :=
  match process_ this with
  | Some p =>
      with_process
        (Some {| command := command p; args := args p;
                 workingDirectory := workingDirectory p;
                 normalExit := normal; exitStatus := status |})
        this
  | None => this
  end.

(** [abort_process_impl] *)
Definition abort_process_impl (this : t) (w : World) : t * World :=
  let this := with_progress None this in
  let w := match process_ this with
           | Some p => emit (Kill (command p)) w
           | None => w
           end in
  (with_process None this, w).

(** Whether [finished_impl] takes the branch that reports the failure.
    Without [DVIEXPORT_USE_QPROCESS] (the build the file selects) the test
    is [process_ && process_->normalExit() && process_->exitStatus() != 0]
    and the function has no argument; with it the test is
    [process_ && exit_code != 0]. *)
Definition reports_failure (h : Host) (exit_code : Z) (this : t) : bool :=
  match process_ this with
  | Some p =>
      if use_qprocess h then negb (exit_code =? 0)
      else normalExit p && negb (exitStatus p =? 0)
  | None => false
  end.

(** [finished_impl] *)
Definition finished_impl (h : Host) (exit_code : Z) (this : t) (w : World) : t * World :=
  let this :=
    match progress_ this with
    | Some d =>
        with_progress
          (Some {| isVisible := false; totalSteps := totalSteps d;
                   labelText := labelText d; finished_connected := false |})
          this
    | None => this
    end in
  let w := if reports_failure h exit_code this
           then emit (Error (error_message_ this)) w else w in
  (this, emit ExportFinished w).

(** [output_receiver]; [buflen] is the length of [buffer], and the
    paranoia test on it exists only without [DVIEXPORT_USE_QPROCESS]. *)
Definition output_receiver (h : Host) (buffer : string) (this : t) (w : World) : t * World :=
  if negb (use_qprocess h) && QStr.isEmpty buffer then (this, w)
  else match process_ this with
       | Some _ =>
           let w := emit (InfoDialog buffer false) w in
           match progress_ this with
           | Some d =>
               (with_progress
                  (Some {| isVisible := true; totalSteps := totalSteps d;
                           labelText := labelText d;
                           finished_connected := finished_connected d |})
                  this, w)
           | None => (this, w)
           end
       | None => (this, w)
       end.

(** [DVIExport::~DVIExport]: deletes the dialog and the process, which
    kills the child; nothing else is released. *)
Definition destroy (this : t) (w : World) : World :=
  match process_ this with
  | Some p => emit (Kill (command p)) w
  | None => w
  end.

End DVIExport.

(** The suggestion for the name of the output file:
    [dvi.filename.left(dvi.filename.find(".")) + extension]. *)
Definition suggested_name (dvi_filename extension : string) : string :=
  QStr.left (QStr.find "." dvi_filename) dvi_filename +:+ extension.

(** ** class [DVIExportToPDF] *)

Module DVIExportToPDF.

(** [DVIExportToPDF::DVIExportToPDF] *)
Definition new (h : Host) (w : World) : DVIExport.t * World :=
  let this := DVIExport.new in
  match dviFile (parent w) with
  | None => (this, w)
  | Some dvi =>
  if negb (exists_ (fs w) (filename dvi)) || negb (readable (fs w) (filename dvi))
  then (this, w)
  else if negb (find_exe h (fs w) "dvipdfm")
  then (this, emit (Sorry Msg.dvipdfm_missing) w)
  else
  let suggested := suggested_name (filename dvi) ".pdf" in
  let output_name := getSaveFileName h suggested Msg.pdf_filter in
  let w := emit (SaveFileDialog suggested Msg.pdf_filter) w in
  if QStr.isEmpty output_name then (this, w)
  else
  let asked := negb (exists_ (fs w) output_name) in
  let w := if asked then emit (OverwriteDialog output_name) w else w in
  match (if asked then warningContinueCancel h output_name else Continue) with
  | Cancel => (this, w)
  | Continue =>
  let this :=
    DVIExport.initialise_progress_dialog (total_pages dvi)
      "Using dvipdfm to export the file to PDF" this in
  let w := emit (InfoDialog (Msg.export_to_pdf (filename dvi)) true) w in
  DVIExport.start h "dvipdfm" ["-o"; output_name; filename dvi]
    (dirPath h (filename dvi)) Msg.dvipdfm_failed this w
  end
  end.

End DVIExportToPDF.

(** ** class [DVIExportToPS] *)

Module DVIExportToPS.

Record t := {
  base : DVIExport.t;
  printer_ : option KPrinter;
  output_name_ : string;
  tmpfile_name_ : string;
}.

Definition with_base (b : DVIExport.t) (this : t) : t :=
  {| base := b; printer_ := printer_ this; output_name_ := output_name_ this;
     tmpfile_name_ := tmpfile_name_ this |}.

Definition with_output_name (name : string) (this : t) : t :=
  {| base := base this; printer_ := printer_ this; output_name_ := name;
     tmpfile_name_ := tmpfile_name_ this |}.

Definition with_tmpfile_name (name : string) (this : t) : t :=
  {| base := base this; printer_ := printer_ this;
     output_name_ := output_name_ this; tmpfile_name_ := name |}.

(** The rewriting decision: [!options.isEmpty() || dvi.suggestedPageSize != 0]. *)
Definition needs_rewrite (dvi : dvifile) (options : list string) : bool :=
  negb (match options with [] => true | _ => false end)
  || (match suggestedPageSize dvi with Some _ => true | None => false end).

(** The pages the loop over [parent.current_page] visits. *)
Definition pages (d : dvifile) : list Z :=
  map Z.of_nat (seq 0 (Z.to_nat (total_pages d))).

(** The copy that is saved: renumbered, then scanned page by page. *)
Definition rewritten (h : Host) (dvi : dvifile) : dvifile :=
  let newFile := renumber h dvi in
  fold_left (prescan_removePageSizeInfo h) (pages newFile) newFile.

(** The block guarded by the rewriting decision: a temporary file is
    opened for its name, the renumbered copy is scanned through the
    renderer, whose [current_page] and [dviFile] are put back afterwards
    and whose [errorMsg] stays cleared, and the copy is saved under the
    temporary name.  Returns [input_name].  The [QTemporaryFile] object
    is local to the block and the code leaves its auto-remove on: when
    the block ends, its destructor removes the file under its name, and
    with it what [saveAs] has written there, before dvips is started. *)
Definition rewrite_input (h : Host) (dvi : dvifile) (this : t) (w : World)
    : string * t * World :=
  let name := temporaryFileName h (fs w) in
  let w := emit (TemporaryFile name) (set_fs (<[name := empty_file]> (fs w)) w) in
  let this := with_tmpfile_name name this in
  let input_name := name in
  let newFile := rewritten h dvi in
  let w := set_parent {| dviFile := dviFile (parent w);
                         current_page := current_page (parent w);
                         errorMsg := EmptyString |} w in
  let w := emit (SaveAs input_name)
             (set_fs (<[input_name := saved_file newFile]> (fs w)) w) in
  let w := emit (Remove name) (set_fs (delete name (fs w)) w) in
  (input_name, this, w).

(** The last part of the constructor, from the choice of [input_name]. *)
Definition launch (h : Host) (dvi : dvifile) (options : list string)
    (this : t) (w : World) : t * World :=
  let '(input_name, this, w) :=
    if needs_rewrite dvi options then rewrite_input h dvi this w
    else (filename dvi, this, w) in
  let this :=
    with_base
      (DVIExport.initialise_progress_dialog (total_pages dvi)
         "Using dvips to export the file to PostScript" (base this)) this in
  let w := emit (InfoDialog (Msg.export_to_ps (filename dvi)) true) w in
  let args :=
    (match printer_ this with None => ["-z"] | Some _ => [] end)
    ++ options ++ [input_name; "-o"; output_name_ this] in
  let '(b, w) :=
    DVIExport.start h "dvips" args (dirPath h (filename dvi)) Msg.dvips_failed
      (base this) w in
  (with_base b this, w).

(** [DVIExportToPS::DVIExportToPS] *)
Definition new (h : Host) (output_name : string) (options : list string)
    (printer : option KPrinter) (w : World) : t * World :=
  let this := {| base := DVIExport.new; printer_ := printer;
                 output_name_ := EmptyString; tmpfile_name_ := EmptyString |} in
  match dviFile (parent w) with
  | None => (this, w)
  | Some dvi =>
  if negb (exists_ (fs w) (filename dvi)) || negb (readable (fs w) (filename dvi))
  then (this, w)
  else if (match page_offset dvi with [] => true | _ => false end)
  then (this, w)
  else if negb (numberOfExternalNONPSFiles dvi =? 0)
  then (this, emit (Sorry Msg.non_ps_graphics) w)
  else if negb (find_exe h (fs w) "dvips")
  then (this, emit (Sorry Msg.dvips_missing) w)
  else if negb (QStr.isEmpty output_name)
  then launch h dvi options (with_output_name output_name this) w
  else
  let suggested := suggested_name (filename dvi) ".ps" in
  let this := with_output_name (getSaveFileName h suggested Msg.ps_filter) this in
  let w := emit (SaveFileDialog suggested Msg.ps_filter) w in
  if QStr.isEmpty (output_name_ this) then (this, w)
  else
  let asked := negb (exists_ (fs w) (output_name_ this)) in
  let w := if asked then emit (OverwriteDialog (output_name_ this)) w else w in
  match (if asked then warningContinueCancel h (output_name_ this) else Continue) with
  | Cancel => (this, w)
  | Continue => launch h dvi options this w
  end
  end.

(** [DVIExportToPS::finished_impl] *)
Definition finished_impl (h : Host) (exit_code : Z) (this : t) (w : World) : t * World :=
  let w :=
    match printer_ this with
    | Some printer =>
        if negb (QStr.isEmpty (output_name_ this))
           && exists_ (fs w) (output_name_ this)
           && readable (fs w) (output_name_ this)
        then emit (PrintFiles printer [output_name_ this]) w
        else w
    | None => w
    end in
  let '(b, w) := DVIExport.finished_impl h exit_code (base this) w in
  (with_base b this, w).

(** [DVIExportToPS::abort_process_impl] *)
Definition abort_process_impl (this : t) (w : World) : t * World :=
  let '(this, w) :=
    if negb (QStr.isEmpty (tmpfile_name_ this))
    then (with_tmpfile_name EmptyString this,
          emit (Remove (tmpfile_name_ this))
            (set_fs (delete (tmpfile_name_ this) (fs w)) w))
    else (this, w) in
  let this := {| base := base this; printer_ := None;
                 output_name_ := output_name_ this;
                 tmpfile_name_ := tmpfile_name_ this |} in
  let '(b, w) := DVIExport.abort_process_impl (base this) w in
  (with_base b this, w).

(** The class declares no destructor in this file: destroying the object
    runs [DVIExport::~DVIExport] only. *)
Definition destroy (this : t) (w : World) : World :=
  DVIExport.destroy (base this) w.

End DVIExportToPS.

(** ** Vocabulary of the statements *)

(** Whether the character [c] occurs in [s]. *)
Fixpoint occurs (c : ascii) (s : string) : bool :=
  match s with
  | EmptyString => false
  | String a rest => Ascii.eqb a c || occurs c rest
  end.

(** The parts of a list, joined with [sep] between them. *)
Fixpoint join (sep : ascii) (parts : list string) : string :=
  match parts with
  | [] => EmptyString
  | [part] => part
  | part :: rest => part +:+ String sep (join sep rest)
  end.

(** The flag that exports hyperlinks, given unless a printer is the target. *)
Definition hyperlink_flag (printer : option KPrinter) : list string :=
  match printer with None => ["-z"] | Some _ => [] end.

(** The events of [DVIExport::start]. *)
Definition start_events (h : Host) (command : string) (args : list string)
    (working_directory : string) : list Event :=
  Spawn command args working_directory
  :: (if process_start h command args then []
      else [KdError (command +:+ " failed to start")]).

(** The checks the PostScript constructor makes on the document [dvi]
    before it asks for anything, in the order of the source. *)
Definition ps_checks_pass (h : Host) (fs : FileSystem) (dvi : dvifile) : bool :=
  exists_ fs (filename dvi) && readable fs (filename dvi)
  && negb (match page_offset dvi with [] => true | _ => false end)
  && (numberOfExternalNONPSFiles dvi =? 0)
  && find_exe h fs "dvips".

(** The checks the PDF constructor makes before it asks for anything. *)
Definition pdf_checks_pass (h : Host) (fs : FileSystem) (dvi : dvifile) : bool :=
  exists_ fs (filename dvi) && readable fs (filename dvi)
  && find_exe h fs "dvipdfm".

(** The events of the interactive choice of the output file [out]. *)
Definition choice_events (fs : FileSystem) (suggested filter out : string) : list Event :=
  SaveFileDialog suggested filter
  :: (if exists_ fs out then [] else [OverwriteDialog out]).

(** The world [w] after the events [evs]. *)
Definition after_events (evs : list Event) (w : World) : World :=
  {| fs := fs w; parent := parent w; trace := trace w ++ evs |}.

(** The PostScript export object before [launch]. *)
Definition ps_ready (printer : option KPrinter) (out : string) : DVIExportToPS.t :=
  {| DVIExportToPS.base := DVIExport.new;
     DVIExportToPS.printer_ := printer;
     DVIExportToPS.output_name_ := out;
     DVIExportToPS.tmpfile_name_ := EmptyString |}.

(** A file that exists and is readable and executable. *)
Definition usable (fs : FileSystem) (path : string) : Prop :=
  exists f, fs !! path = Some f /\ isReadable f = true /\ isExecutable f = true.

(** The host [h] with another environment. *)
Definition with_environ (env : gmap string string) (h : Host) : Host :=
  {| win32 := win32 h;
     use_qprocess := use_qprocess h;
     isAbsolute := isAbsolute h;
     dirPath := dirPath h;
     environ := env;
     getSaveFileName := getSaveFileName h;
     warningContinueCancel := warningContinueCancel h;
     temporaryFileName := temporaryFileName h;
     process_start := process_start h;
     renumber := renumber h;
     prescan_removePageSizeInfo := prescan_removePageSizeInfo h |}.

(** ** The events of one call *)

(** The events a call added to the trace, given the worlds before and
    after it. *)
Definition emitted (w w' : World) : list Event :=
  drop (length (trace w)) (trace w').

Definition is_TemporaryFile (e : Event) : bool :=
  match e with TemporaryFile _ => true | _ => false end.

Definition is_Spawn (e : Event) : bool :=
  match e with Spawn _ _ _ => true | _ => false end.

Definition is_Error (e : Event) : bool :=
  match e with Error _ => true | _ => false end.

(** The paths for which the overwrite confirmation was requested. *)
Definition overwrite_requests (evs : list Event) : list string :=
  flat_map (fun e => match e with OverwriteDialog name => [name] | _ => [] end) evs.

(** ** Further vocabulary *)

(** The number of occurrences of the character [c] in [s]. *)
Fixpoint count_char (c : ascii) (s : string) : nat :=
  match s with
  | EmptyString => O
  | String a rest => ((if Ascii.eqb a c then 1 else 0) + count_char c rest)%nat
  end.

(** An entry of the search path with the slash [find_exe] gives it. *)
Definition with_slash (it : string) : string :=
  if QStr.endsWith "/" it then it else it +:+ "/".

(** The two questions a constructor can put to the user. *)
Definition is_dialog (e : Event) : bool :=
  match e with
  | SaveFileDialog _ _ | OverwriteDialog _ => true
  | _ => false
  end.

(** The events that touch the file system. *)
Definition is_file_event (e : Event) : bool :=
  match e with
  | TemporaryFile _ | SaveAs _ | Remove _ => true
  | _ => false
  end.

Definition is_Kill (e : Event) : bool :=
  match e with Kill _ => true | _ => false end.

Definition is_PrintFiles (e : Event) : bool :=
  match e with PrintFiles _ _ => true | _ => false end.

Definition is_InfoDialog (e : Event) : bool :=
  match e with InfoDialog _ _ => true | _ => false end.

(** ** A POSIX host and a small file system for the examples *)

Module Example.

Definition posix_isAbsolute (path : string) : bool :=
  match path with
  | String c _ => Ascii.eqb c "/"
  | EmptyString => false
  end.

(** The part of [path] before its last slash, if it has one. *)
Fixpoint dir_part (path : string) : option string :=
  match path with
  | EmptyString => None
  | String c rest =>
      match dir_part rest with
      | Some d => Some (String c d)
      | None => if Ascii.eqb c "/" then Some EmptyString else None
      end
  end.

(** [QFileInfo::dirPath(true)] with the current directory [/home/u]. *)
Definition posix_dirPath (path : string) : string :=
  match dir_part path with
  | Some EmptyString => "/"
  | Some d => if posix_isAbsolute path then d else "/home/u/" +:+ d
  | None => "/home/u"
  end.

Definition program : File :=
  {| isReadable := true; isExecutable := true; content := None |}.

Definition doc : dvifile :=
  {| filename := "/home/u/report.v2.dvi"; total_pages := 2;
     page_offset := [14; 120; 300]; numberOfExternalNONPSFiles := 0;
     suggestedPageSize := Some {| pageWidth := 210; pageHeight := 297 |};
     dvi_Data := [] |}.


Definition doc_with_graphics : dvifile :=
  {| filename := filename doc; total_pages := total_pages doc;
     page_offset := page_offset doc; numberOfExternalNONPSFiles := 2;
     suggestedPageSize := suggestedPageSize doc; dvi_Data := dvi_Data doc |}.

Definition doc_without_pages : dvifile :=
  {| filename := filename doc; total_pages := 0;
     page_offset := [14]; numberOfExternalNONPSFiles := 0;
     suggestedPageSize := None; dvi_Data := dvi_Data doc |}.

Definition doc_without_page_table : dvifile :=
  {| filename := filename doc; total_pages := 0;
     page_offset := []; numberOfExternalNONPSFiles := 0;
     suggestedPageSize := None; dvi_Data := dvi_Data doc |}.

Definition fs0 : FileSystem :=
  <["/usr/bin/dvips" := program]>
    (<["/usr/bin/dvipdfm" := program]>
       (<["/home/u/report.v2.dvi" := saved_file doc]> ∅)).

(** The user accepts the suggested name and confirms every question. *)
Definition host : Host :=
  {| win32 := false;
     use_qprocess := false;
     isAbsolute := posix_isAbsolute;
     dirPath := posix_dirPath;
     environ := <["PATH" := "/usr/local/bin:/usr/bin"]> ∅;
     getSaveFileName := fun suggested _ => suggested;
     warningContinueCancel := fun _ => Continue;
     temporaryFileName := fun _ => "/tmp/qt_temp.a1";
     process_start := fun _ _ => true;
     renumber := fun d => d;
     prescan_removePageSizeInfo := fun d _ => d |}.

Definition qprocess_host : Host :=
  {| win32 := false;
     use_qprocess := true;
     isAbsolute := posix_isAbsolute;
     dirPath := posix_dirPath;
     environ := environ host;
     getSaveFileName := getSaveFileName host;
     warningContinueCancel := warningContinueCancel host;
     temporaryFileName := temporaryFileName host;
     process_start := process_start host;
     renumber := renumber host;
     prescan_removePageSizeInfo := prescan_removePageSizeInfo host |}.

Definition world_on (f : FileSystem) (d : dvifile) : World :=
  {| fs := f;
     parent := {| dviFile := Some d; current_page := 1; errorMsg := EmptyString |};
     trace := [] |}.

Definition world (d : dvifile) : World := world_on fs0 d.

(** The file system in which the suggested PDF file exists already. *)
Definition fs1 : FileSystem := <["/home/u/report.pdf" := empty_file]> fs0.

End Example.

(** ** A Windows host *)

Module Windows.

Definition drive_isAbsolute (path : string) : bool :=
  match path with
  | String _ (String colon (String slash _)) =>
      Ascii.eqb colon ":" && Ascii.eqb slash "/"
  | _ => false
  end.

Definition host : Host :=
  {| win32 := true;
     use_qprocess := use_qprocess Example.host;
     isAbsolute := drive_isAbsolute;
     dirPath := dirPath Example.host;
     environ := <["PATH" := "C:/texmf/bin;C:/windows/"]> ∅;
     getSaveFileName := getSaveFileName Example.host;
     warningContinueCancel := warningContinueCancel Example.host;
     temporaryFileName := temporaryFileName Example.host;
     process_start := process_start Example.host;
     renumber := renumber Example.host;
     prescan_removePageSizeInfo := prescan_removePageSizeInfo Example.host |}.

Definition fs0 : FileSystem :=
  <["C:/texmf/bin/dvips.exe" := Example.program]> ∅.

End Windows.

(** ** Other users and systems *)

Module Scenario.

(** The user who answers the question about overwriting with Cancel. *)
Definition declining_host : Host :=
  {| win32 := false;
     use_qprocess := false;
     isAbsolute := isAbsolute Example.host;
     dirPath := dirPath Example.host;
     environ := environ Example.host;
     getSaveFileName := getSaveFileName Example.host;
     warningContinueCancel := fun _ => Cancel;
     temporaryFileName := temporaryFileName Example.host;
     process_start := process_start Example.host;
     renumber := renumber Example.host;
     prescan_removePageSizeInfo := prescan_removePageSizeInfo Example.host |}.

(** The system that cannot spawn the child. *)
Definition failing_host : Host :=
  {| win32 := false;
     use_qprocess := false;
     isAbsolute := isAbsolute Example.host;
     dirPath := dirPath Example.host;
     environ := environ Example.host;
     getSaveFileName := getSaveFileName Example.host;
     warningContinueCancel := warningContinueCancel Example.host;
     temporaryFileName := temporaryFileName Example.host;
     process_start := fun _ _ => false;
     renumber := renumber Example.host;
     prescan_removePageSizeInfo := prescan_removePageSizeInfo Example.host |}.

(** A printer, and the file system once dvips has written its output. *)
Definition printer : KPrinter := {| printerName := "lp0" |}.

Definition fs_with_output : FileSystem :=
  <["/home/u/out.ps" := empty_file]> Example.fs0.



End Scenario.

(** * Properties *)

(** ** Strings *)

Lemma isEmpty_true (s : string) : QStr.isEmpty s = true <-> s = EmptyString.
Proof. destruct s; simpl; split; congruence. Qed.

Lemma isEmpty_false (s : string) : QStr.isEmpty s = false <-> s <> EmptyString.
Proof. destruct s; simpl; split; congruence. Qed.

Lemma prefix_dot (c : ascii) (s : string) :
  String.prefix "." (String c s) = Ascii.eqb c ".".
Proof.
  cbn [String.prefix]. destruct (ascii_dec "." c) as [<- | Hne].
  - destruct s; reflexivity.
  - symmetry. apply Ascii.eqb_neq. congruence.
Qed.

Lemma index_cons (pat : string) (c : ascii) (s : string) :
  String.index 0 pat (String c s) =
  if String.prefix pat (String c s) then Some 0%nat
  else match String.index 0 pat s with Some n => Some (S n) | None => None end.
Proof. reflexivity. Qed.

Lemma append_cons (c : ascii) (a b : string) :
  String c a +:+ b = String c (a +:+ b).
Proof. reflexivity. Qed.

Lemma index_first_dot (pre rest : string) :
  occurs "." pre = false ->
  String.index 0 "." (pre +:+ String "." rest) = Some (String.length pre).
Proof.
  induction pre as [| c pre IH]; intros Hpre.
  - change (EmptyString +:+ String "." rest) with (String "." rest).
    rewrite index_cons, prefix_dot. reflexivity.
  - cbn [occurs] in Hpre. apply orb_false_iff in Hpre as [Hc Hpre].
    rewrite append_cons, index_cons, prefix_dot, Hc, (IH Hpre).
    reflexivity.
Qed.

Lemma index_no_dot (s : string) :
  occurs "." s = false -> String.index 0 "." s = None.
Proof.
  induction s as [| c s IH]; intros Hs; [reflexivity |].
  cbn [occurs] in Hs. apply orb_false_iff in Hs as [Hc Hs].
  rewrite index_cons, prefix_dot, Hc, (IH Hs). reflexivity.
Qed.

Lemma substring_prefix (pre rest : string) :
  String.substring 0 (String.length pre) (pre +:+ rest) = pre.
Proof.
  induction pre as [| c pre IH]; simpl.
  - destruct rest; reflexivity.
  - now rewrite IH.
Qed.

Lemma length_append (a b : string) :
  String.length (a +:+ b) = (String.length a + String.length b)%nat.
Proof. induction a as [| c a IH]; simpl; [reflexivity | now rewrite IH]. Qed.

Lemma left_at_first_dot (pre rest : string) :
  occurs "." pre = false ->
  QStr.left (QStr.find "." (pre +:+ String "." rest)) (pre +:+ String "." rest) = pre.
Proof.
  intros Hpre. unfold QStr.find, QStr.left.
  rewrite (index_first_dot _ _ Hpre), length_append. cbn [String.length].
  replace (_ || _) with false.
  - rewrite Nat2Z.id. apply substring_prefix.
  - symmetry. apply orb_false_iff. split; [apply Z.ltb_ge | apply Z.leb_gt]; lia.
Qed.

Lemma left_without_dot (s : string) :
  occurs "." s = false -> QStr.left (QStr.find "." s) s = s.
Proof.
  intros Hs. unfold QStr.find, QStr.left. now rewrite (index_no_dot _ Hs).
Qed.

(** [split] yields at least one part, none of which holds the separator,
    and joining the parts with the separator gives the string back. *)
Lemma split_not_nil (sep : ascii) (s : string) : QStr.split sep s <> [].
Proof.
  destruct s as [| c s]; simpl; [discriminate |].
  destruct (Ascii.eqb c sep); [discriminate |].
  destruct (QStr.split sep s); discriminate.
Qed.

Lemma join_cons (sep : ascii) (a b : string) (l : list string) :
  join sep (a :: b :: l) = a +:+ String sep (join sep (b :: l)).
Proof. reflexivity. Qed.

Lemma join_split (sep : ascii) (s : string) : join sep (QStr.split sep s) = s.
Proof.
  induction s as [| c s IH]; [reflexivity |].
  cbn [QStr.split]. pose proof (split_not_nil sep s) as Hnil.
  destruct (Ascii.eqb_spec c sep) as [-> | Hne];
    destruct (QStr.split sep s) as [| p ps]; try congruence.
  - rewrite join_cons, IH. reflexivity.
  - destruct ps as [| q ps].
    + cbn [join] in *. now rewrite IH.
    + rewrite join_cons in *. rewrite append_cons, IH. reflexivity.
Qed.

Lemma split_parts_without_separator (sep : ascii) (s : string) :
  Forall (fun part => occurs sep part = false) (QStr.split sep s).
Proof.
  induction s as [| c s IH]; cbn [QStr.split].
  - repeat constructor.
  - destruct (Ascii.eqb c sep) eqn:Hc.
    + constructor; [reflexivity | exact IH].
    + destruct (QStr.split sep s) as [| p ps]; [repeat constructor; simpl; now rewrite Hc |].
      inversion IH; subst. constructor; [| assumption].
      cbn [occurs]. now rewrite Hc.
Qed.

(** C9: the suggested output name is the source file name cut at its
    first dot, followed by the extension of the target format; a name
    without a dot is kept whole.  For [report.v2.dvi] the part kept is
    [report]. *)
Theorem suggested_name_cuts_at_first_dot :
  (forall pre rest extension : string,
      occurs "." pre = false ->
      suggested_name (pre +:+ String "." rest) extension = pre +:+ extension)
  /\ (forall name extension : string,
      occurs "." name = false ->
      suggested_name name extension = name +:+ extension)
  /\ suggested_name "report.v2.dvi" ".pdf" = "report.pdf"
  /\ suggested_name "report.v2.dvi" ".ps" = "report.ps".
Proof.
  split; [| split; [| split; reflexivity]].
  - intros pre rest extension Hpre. unfold suggested_name.
    now rewrite left_at_first_dot.
  - intros name extension Hname. unfold suggested_name.
    now rewrite left_without_dot.
Qed.

(** The cut at the first dot of a full path. *)
Lemma suggested_name_cuts_at_first_dot_witness :
  suggested_name ("/home/u/report" +:+ String "." "v2.dvi") ".ps"
  = "/home/u/report" +:+ ".ps".
Proof.
  apply (proj1 suggested_name_cuts_at_first_dot). reflexivity.
Defined.

(** ** PathResolver *)

Lemma usable_true (fs : FileSystem) (path : string) :
  exists_ fs path && readable fs path && executable fs path = true
  <-> usable fs path.
Proof.
  unfold exists_, readable, executable, usable.
  destruct (fs !! path) as [f |]; simpl.
  - rewrite andb_true_iff. split.
    + intros [Hr Hx]. now exists f.
    + intros (f' & Hf & Hr & Hx). now inversion Hf; subst.
  - split; [discriminate | intros (f & Hf & _); discriminate].
Qed.

Lemma usable_after_exists (fs : FileSystem) (path : string) :
  exists_ fs path = true ->
  (readable fs path && executable fs path = true <-> usable fs path).
Proof. intros He. rewrite <- usable_true, He. reflexivity. Qed.

Lemma exists_false (fs : FileSystem) (path : string) :
  exists_ fs path = false <-> fs !! path = None.
Proof. unfold exists_. destruct (fs !! path); split; congruence. Qed.

Lemma exists_true (fs : FileSystem) (path : string) :
  exists_ fs path = true <-> is_Some (fs !! path).
Proof.
  unfold exists_. destruct (fs !! path); split; try congruence; eauto.
  intros [? ?]; congruence.
Qed.

(** The loop stops at the first entry whose candidate exists. *)
Lemma search_path_skips (fs : FileSystem) (exe : string) (before rest : list string) :
  Forall (fun it => fs !! abs_exe exe it = None) before ->
  search_path fs exe (before ++ rest) = search_path fs exe rest.
Proof.
  induction 1 as [| it before Hit _ IH]; [reflexivity |].
  cbn [app search_path]. apply exists_false in Hit. now rewrite Hit.
Qed.

Lemma search_path_first (fs : FileSystem) (exe it : string) (rest : list string) :
  is_Some (fs !! abs_exe exe it) ->
  search_path fs exe (it :: rest)
  = readable fs (abs_exe exe it) && executable fs (abs_exe exe it).
Proof. intros He. apply exists_true in He. cbn [search_path]. now rewrite He. Qed.

Lemma search_path_true (fs : FileSystem) (exe : string) (path : list string) :
  search_path fs exe path = true <->
  exists before it after,
    path = before ++ it :: after
    /\ Forall (fun d => fs !! abs_exe exe d = None) before
    /\ usable fs (abs_exe exe it).
Proof.
  split.
  - induction path as [| d path IH]; [discriminate |].
    cbn [search_path]. destruct (exists_ fs (abs_exe exe d)) eqn:He.
    + intros H. apply (usable_after_exists _ _ He) in H.
      exists [], d, path. repeat split; [constructor | exact H].
    + intros H. destruct (IH H) as (before & it & after & -> & Hb & Hu).
      exists (d :: before), it, after. repeat split; [| exact Hu].
      constructor; [now apply exists_false | exact Hb].
  - intros (before & it & after & -> & Hb & Hu).
    rewrite (search_path_skips _ _ _ _ Hb), search_path_first.
    + apply usable_after_exists; [| exact Hu].
      destruct Hu as (f & Hf & _). apply exists_true. eauto.
    + destruct Hu as (f & Hf & _). eauto.
Qed.

Lemma get_env_path_PATH (h : Host) :
  get_env_path h (Some "PATH") =
  match environ h !! "PATH" with
  | None => []
  | Some envvar =>
      if QStr.isEmpty envvar then [] else QStr.split (path_separator h) envvar
  end.
Proof. reflexivity. Qed.

Lemma find_exe_absolute (h : Host) (fs : FileSystem) (name : string) :
  isAbsolute h (exe_name h name) = true ->
  find_exe h fs name
  = exists_ fs (exe_name h name) && readable fs (exe_name h name)
    && executable fs (exe_name h name).
Proof. intros Ha. unfold find_exe. now rewrite Ha. Qed.

Lemma find_exe_relative (h : Host) (fs : FileSystem) (name envvar : string) :
  isAbsolute h (exe_name h name) = false ->
  environ h !! "PATH" = Some envvar -> envvar <> EmptyString ->
  find_exe h fs name
  = search_path fs (exe_name h name) (QStr.split (path_separator h) envvar).
Proof.
  intros Ha Henv Hne. unfold find_exe. rewrite Ha, get_env_path_PATH, Henv.
  apply isEmpty_false in Hne. rewrite Hne.
  pose proof (split_not_nil (path_separator h) envvar).
  now destruct (QStr.split (path_separator h) envvar).
Qed.

(** C4: an absolute name resolves iff the file (with [.exe] appended on
    Windows when it is missing) exists and is readable and executable,
    whatever the environment holds.  Any other name fails when [PATH] is
    missing or empty; otherwise [PATH] is split at the separator, the
    entries are tried in order, and the name resolves iff the first entry
    whose candidate exists gives a readable and executable file: a first
    match that is not both makes the resolution fail, whatever follows. *)
Theorem find_exe_resolution (h : Host) (fs : FileSystem) (name : string) :
  let exe := exe_name h name in
  (isAbsolute h exe = true ->
     (find_exe h fs name = true <-> usable fs exe)
     /\ forall env, find_exe (with_environ env h) fs name = find_exe h fs name)
  /\ (isAbsolute h exe = false ->
     (environ h !! "PATH" = None \/ environ h !! "PATH" = Some EmptyString ->
        find_exe h fs name = false)
     /\ forall envvar,
          environ h !! "PATH" = Some envvar -> envvar <> EmptyString ->
          let path := QStr.split (path_separator h) envvar in
          join (path_separator h) path = envvar
          /\ (find_exe h fs name = true <->
              exists before it after,
                path = before ++ it :: after
                /\ Forall (fun d => fs !! abs_exe exe d = None) before
                /\ usable fs (abs_exe exe it))
          /\ forall before it after,
               path = before ++ it :: after ->
               Forall (fun d => fs !! abs_exe exe d = None) before ->
               is_Some (fs !! abs_exe exe it) ->
               ~ usable fs (abs_exe exe it) ->
               find_exe h fs name = false).
Proof.
  intros exe. split.
  - intros Ha. split.
    + rewrite (find_exe_absolute _ _ _ Ha). apply usable_true.
    + intros env.
      now rewrite (find_exe_absolute (with_environ env h) fs name Ha),
        (find_exe_absolute h fs name Ha).
  - intros Ha. split.
    + intros Henv. unfold find_exe. fold exe. rewrite Ha, get_env_path_PATH.
      destruct Henv as [-> | ->]; reflexivity.
    + intros envvar Henv Hne path. split; [apply join_split |].
      rewrite (find_exe_relative _ _ _ _ Ha Henv Hne). fold exe path. split.
      * apply search_path_true.
      * intros before it after -> Hb He Hu.
        rewrite (search_path_skips _ _ _ _ Hb), (search_path_first _ _ _ _ He).
        apply not_true_is_false. intros H. apply Hu.
        apply usable_after_exists; [now apply exists_true | exact H].
Qed.

(** An absolute name, a name found in the second entry of [PATH], and a
    name whose first match is not executable. *)
Lemma find_exe_resolution_witness :
  find_exe Example.host Example.fs0 "/usr/bin/dvips" = true
  /\ find_exe Example.host Example.fs0 "dvips" = true
  /\ find_exe Example.host (<["/usr/local/bin/dvips" := empty_file]> Example.fs0) "dvips"
     = false.
Proof.
  split; [| split].
  - apply (proj1 (proj1 (find_exe_resolution Example.host Example.fs0 "/usr/bin/dvips")
                    eq_refl)).
    exists Example.program. repeat split; reflexivity.
  - destruct (proj2 (find_exe_resolution Example.host Example.fs0 "dvips") eq_refl)
      as [_ Hpath].
    destruct (Hpath "/usr/local/bin:/usr/bin" eq_refl ltac:(discriminate))
      as (_ & Hiff & _).
    apply Hiff. exists ["/usr/local/bin"], "/usr/bin", [].
    split; [reflexivity | split].
    + constructor; [reflexivity | constructor].
    + exists Example.program. repeat split; reflexivity.
  - destruct (proj2 (find_exe_resolution Example.host
                       (<["/usr/local/bin/dvips" := empty_file]> Example.fs0) "dvips")
                eq_refl) as [_ Hpath].
    destruct (Hpath "/usr/local/bin:/usr/bin" eq_refl ltac:(discriminate))
      as (_ & _ & Hfirst).
    apply (Hfirst [] "/usr/local/bin" ["/usr/bin"]).
    + reflexivity.
    + constructor.
    + exists empty_file. reflexivity.
    + intros (f & Hf & _ & Hx). vm_compute in Hf. inversion Hf; subst. discriminate.
Defined.

(** ** Traces *)

Lemma drop_own_length (t : list Event) : drop (length t) t = [].
Proof. apply drop_all. Qed.

Lemma drop_past (t evs : list Event) : drop (length t) (t ++ evs) = evs.
Proof. apply drop_app_length. Qed.

(** Brings the events of a call whose result is an explicit chain of
    [emit]s into the open. *)
Ltac events :=
  unfold emitted;
  cbn [trace emit set_fs set_parent fst snd];
  rewrite <- ?app_assoc;
  rewrite ?drop_past, ?drop_own_length;
  cbn [app].

(** ** The PostScript export *)

(** C5: when the document refers to external graphics that are not
    PostScript, the PostScript export ends where that is found out: the
    file system is as before (no temporary file), no process object
    exists and nothing was spawned; the only thing that can have happened
    is the message that the function is unavailable, which is shown
    whenever the checks made before this one pass. *)
Theorem ps_refuses_non_ps_graphics (h : Host) (output_name : string)
    (options : list string) (printer : option KPrinter) (w w' : World)
    (dvi : dvifile) (this : DVIExportToPS.t) :
  dviFile (parent w) = Some dvi ->
  numberOfExternalNONPSFiles dvi <> 0 ->
  DVIExportToPS.new h output_name options printer w = (this, w') ->
  fs w' = fs w
  /\ DVIExportToPS.tmpfile_name_ this = EmptyString
  /\ DVIExport.process_ (DVIExportToPS.base this) = None
  /\ DVIExport.started_ (DVIExportToPS.base this) = false
  /\ (emitted w w' = [] \/ emitted w w' = [Sorry Msg.non_ps_graphics])
  /\ (exists_ (fs w) (filename dvi) = true ->
      readable (fs w) (filename dvi) = true ->
      page_offset dvi <> [] ->
      emitted w w' = [Sorry Msg.non_ps_graphics]).
Proof.
  intros Hdvi Hn Hnew. unfold DVIExportToPS.new in Hnew. rewrite Hdvi in Hnew.
  apply Z.eqb_neq in Hn. rewrite Hn in Hnew. cbn [negb] in Hnew.
  destruct (exists_ (fs w) (filename dvi)), (readable (fs w) (filename dvi)),
    (page_offset dvi); cbn [negb orb] in Hnew;
    inversion Hnew; subst; clear Hnew;
    (repeat split; try reflexivity;
     [ events; auto | intros; events; congruence ]).
Qed.

(** A document with two external graphics that are not PostScript. *)
Lemma ps_refuses_non_ps_graphics_witness :
  let w := Example.world Example.doc_with_graphics in
  let r := DVIExportToPS.new Example.host "/home/u/out.ps" ["-pp"; "3"] None w in
  fs (snd r) = fs w
  /\ DVIExportToPS.tmpfile_name_ (fst r) = EmptyString
  /\ DVIExport.process_ (DVIExportToPS.base (fst r)) = None
  /\ DVIExport.started_ (DVIExportToPS.base (fst r)) = false
  /\ (emitted w (snd r) = [] \/ emitted w (snd r) = [Sorry Msg.non_ps_graphics])
  /\ (exists_ (fs w) (filename Example.doc_with_graphics) = true ->
      readable (fs w) (filename Example.doc_with_graphics) = true ->
      page_offset Example.doc_with_graphics <> [] ->
      emitted w (snd r) = [Sorry Msg.non_ps_graphics]).
Proof.
  intros w r.
  apply (ps_refuses_non_ps_graphics Example.host "/home/u/out.ps" ["-pp"; "3"] None
           w (snd r) Example.doc_with_graphics (fst r)).
  - reflexivity.
  - simpl. lia.
  - apply surjective_pairing.
Defined.

(** What [start] leaves behind. *)
Lemma start_spec (h : Host) (command : string) (args : list string)
    (wd msg : string) (this : DVIExport.t) (w : World) :
  let r := DVIExport.start h command args wd msg this w in
  DVIExport.process_ (fst r)
  = Some {| command := command; args := args; workingDirectory := wd;
            normalExit := false; exitStatus := 0 |}
  /\ DVIExport.started_ (fst r)
     = process_start h command args || DVIExport.started_ this
  /\ DVIExport.progress_ (fst r) = DVIExport.progress_ this
  /\ DVIExport.error_message_ (fst r) = msg
  /\ fs (snd r) = fs w
  /\ parent (snd r) = parent w
  /\ trace (snd r) = trace w ++ start_events h command args wd.
Proof.
  unfold DVIExport.start, start_events.
  destruct (process_start h command args); cbn;
    repeat split; try reflexivity.
  now rewrite <- app_assoc.
Qed.

(** What the last part of the PostScript constructor does: the decision
    about rewriting, the argument vector, the working directory. *)
Lemma launch_spec (h : Host) (dvi : dvifile) (options : list string)
    (this this' : DVIExportToPS.t) (w w' : World) :
  DVIExportToPS.launch h dvi options this w = (this', w') ->
  let tmp := temporaryFileName h (fs w) in
  let rewrite := DVIExportToPS.needs_rewrite dvi options in
  let input_name := if rewrite then tmp else filename dvi in
  let args := hyperlink_flag (DVIExportToPS.printer_ this) ++ options
              ++ [input_name; "-o"; DVIExportToPS.output_name_ this] in
  DVIExport.process_ (DVIExportToPS.base this')
  = Some {| command := "dvips"; args := args;
            workingDirectory := dirPath h (filename dvi);
            normalExit := false; exitStatus := 0 |}
  /\ DVIExport.error_message_ (DVIExportToPS.base this') = Msg.dvips_failed
  /\ DVIExportToPS.printer_ this' = DVIExportToPS.printer_ this
  /\ DVIExportToPS.output_name_ this' = DVIExportToPS.output_name_ this
  /\ DVIExportToPS.tmpfile_name_ this'
     = (if rewrite then tmp else DVIExportToPS.tmpfile_name_ this)
  /\ fs w' = (if rewrite then delete tmp (fs w) else fs w)
  /\ dviFile (parent w') = dviFile (parent w)
  /\ current_page (parent w') = current_page (parent w)
  /\ trace w'
     = trace w
       ++ (if rewrite then [TemporaryFile tmp; SaveAs tmp; Remove tmp] else [])
       ++ InfoDialog (Msg.export_to_ps (filename dvi)) true
       :: start_events h "dvips" args (dirPath h (filename dvi)).
Proof.
  unfold DVIExportToPS.launch, hyperlink_flag. intros Hl. cbv zeta. revert Hl.
  destruct (DVIExportToPS.needs_rewrite dvi options).
  - unfold DVIExportToPS.rewrite_input.
    cbn [DVIExportToPS.with_tmpfile_name DVIExportToPS.with_base
         DVIExportToPS.base DVIExportToPS.printer_ DVIExportToPS.output_name_
         DVIExportToPS.tmpfile_name_].
    match goal with
    | |- context [DVIExport.start ?h ?c ?a ?d ?m ?t ?w0] =>
        pose proof (start_spec h c a d m t w0) as Hs;
        destruct (DVIExport.start h c a d m t w0) as [b w1]
    end.
    cbn [fst snd] in Hs. destruct Hs as (Hp & _ & _ & Hm & Hfs & Hpar & Htr).
    intros Hl. inversion Hl; subst; clear Hl.
    cbn [DVIExportToPS.with_base DVIExportToPS.base DVIExportToPS.printer_
         DVIExportToPS.output_name_ DVIExportToPS.tmpfile_name_].
    rewrite Hp, Hm, Hfs, Hpar, Htr.
    cbn [fs parent trace emit set_fs set_parent dviFile current_page].
    rewrite !delete_insert_eq, <- !app_assoc.
    repeat split; reflexivity.
  - cbn [DVIExportToPS.with_base DVIExportToPS.base DVIExportToPS.printer_
         DVIExportToPS.output_name_ DVIExportToPS.tmpfile_name_].
    match goal with
    | |- context [DVIExport.start ?h ?c ?a ?d ?m ?t ?w0] =>
        pose proof (start_spec h c a d m t w0) as Hs;
        destruct (DVIExport.start h c a d m t w0) as [b w1]
    end.
    cbn [fst snd] in Hs. destruct Hs as (Hp & _ & _ & Hm & Hfs & Hpar & Htr).
    intros Hl. inversion Hl; subst; clear Hl.
    cbn [DVIExportToPS.with_base DVIExportToPS.base DVIExportToPS.printer_
         DVIExportToPS.output_name_ DVIExportToPS.tmpfile_name_].
    rewrite Hp, Hm, Hfs, Hpar, Htr.
    cbn [fs parent trace emit set_fs set_parent dviFile current_page].
    rewrite <- !app_assoc.
    repeat split; reflexivity.
Qed.

Lemma after_no_events (w : World) : after_events [] w = w.
Proof. destruct w. unfold after_events. cbn. now rewrite app_nil_r. Qed.

Lemma emit_twice (e1 e2 : Event) (w : World) :
  emit e2 (emit e1 w) = after_events [e1; e2] w.
Proof. unfold emit, after_events. cbn. now rewrite <- app_assoc. Qed.

(** A PostScript export that got as far as creating its process passed
    every check, has a non-empty output name (given, or chosen by the
    user, who also agreed to what was asked), and ran [launch]. *)
Lemma ps_new_inv (h : Host) (output_name : string) (options : list string)
    (printer : option KPrinter) (w w' : World) (this : DVIExportToPS.t) :
  DVIExportToPS.new h output_name options printer w = (this, w') ->
  is_Some (DVIExport.process_ (DVIExportToPS.base this)) ->
  exists dvi out evs,
    dviFile (parent w) = Some dvi
    /\ ps_checks_pass h (fs w) dvi = true
    /\ out <> EmptyString
    /\ (output_name <> EmptyString /\ out = output_name /\ evs = []
        \/ output_name = EmptyString
           /\ out = getSaveFileName h (suggested_name (filename dvi) ".ps") Msg.ps_filter
           /\ evs = choice_events (fs w) (suggested_name (filename dvi) ".ps")
                      Msg.ps_filter out
           /\ (exists_ (fs w) out = false -> warningContinueCancel h out = Continue))
    /\ DVIExportToPS.launch h dvi options (ps_ready printer out) (after_events evs w)
       = (this, w').
Proof.
  unfold DVIExportToPS.new. intros Hnew [p Hp].
  destruct (dviFile (parent w)) as [dvi |];
    [| inversion Hnew; subst; discriminate].
  destruct (exists_ (fs w) (filename dvi)) eqn:E1;
    [| inversion Hnew; subst; discriminate].
  destruct (readable (fs w) (filename dvi)) eqn:E2;
    [| inversion Hnew; subst; discriminate].
  destruct (page_offset dvi) as [| o os] eqn:E3;
    [inversion Hnew; subst; discriminate |].
  destruct (numberOfExternalNONPSFiles dvi =? 0) eqn:E4;
    [| inversion Hnew; subst; discriminate].
  destruct (find_exe h (fs w) "dvips") eqn:E5;
    [| inversion Hnew; subst; discriminate].
  assert (Hchk : ps_checks_pass h (fs w) dvi = true)
    by (unfold ps_checks_pass; now rewrite E1, E2, E3, E4, E5).
  cbn [negb orb andb] in Hnew.
  destruct (QStr.isEmpty output_name) eqn:Hout; cbn [negb] in Hnew.
  - apply isEmpty_true in Hout. subst output_name.
    cbn [DVIExportToPS.with_output_name DVIExportToPS.output_name_
         DVIExportToPS.base DVIExportToPS.printer_ DVIExportToPS.tmpfile_name_ fs emit]
      in Hnew.
    set (suggested := suggested_name (filename dvi) ".ps") in *.
    set (out := getSaveFileName h suggested Msg.ps_filter) in *.
    destruct (QStr.isEmpty out) eqn:Hempty;
      [inversion Hnew; subst; discriminate |].
    apply isEmpty_false in Hempty.
    exists dvi, out, (choice_events (fs w) suggested Msg.ps_filter out).
    unfold choice_events.
    destruct (exists_ (fs w) out) eqn:He; cbn [negb] in Hnew.
    + refine (conj eq_refl (conj Hchk (conj Hempty (conj _ Hnew)))).
      right. repeat split. discriminate.
    + destruct (warningContinueCancel h out) eqn:Hw;
        [| inversion Hnew; subst; discriminate].
      rewrite emit_twice in Hnew.
      refine (conj eq_refl (conj Hchk (conj Hempty (conj _ Hnew)))).
      right. repeat split.
  - apply isEmpty_false in Hout.
    exists dvi, output_name, []. rewrite after_no_events.
    refine (conj eq_refl (conj Hchk (conj Hout (conj _ Hnew)))).
    left. repeat split. exact Hout.
Qed.

Lemma emitted_after (w w' : World) (evs : list Event) :
  trace w' = trace w ++ evs -> emitted w w' = evs.
Proof. unfold emitted. intros ->. apply drop_past. Qed.



Lemma choice_events_no_file (fs : FileSystem) (suggested filter out : string) :
  existsb is_TemporaryFile (choice_events fs suggested filter out) = false
  /\ existsb is_Spawn (choice_events fs suggested filter out) = false.
Proof. unfold choice_events. now destruct (exists_ fs out). Qed.

Lemma start_events_no_file (h : Host) (command : string) (args : list string)
    (wd : string) :
  existsb is_TemporaryFile (start_events h command args wd) = false.
Proof. unfold start_events. now destruct (process_start h command args). Qed.

(** Everything a launched PostScript export has done, in one statement. *)
Lemma ps_launched (h : Host) (output_name : string) (options : list string)
    (printer : option KPrinter) (w w' : World) (this : DVIExportToPS.t) :
  DVIExportToPS.new h output_name options printer w = (this, w') ->
  is_Some (DVIExport.process_ (DVIExportToPS.base this)) ->
  exists dvi evs,
    let tmp := temporaryFileName h (fs w) in
    let rewrite := DVIExportToPS.needs_rewrite dvi options in
    let input_name := if rewrite then tmp else filename dvi in
    let args := hyperlink_flag printer ++ options
                ++ [input_name; "-o"; DVIExportToPS.output_name_ this] in
    dviFile (parent w) = Some dvi
    /\ ps_checks_pass h (fs w) dvi = true
    /\ DVIExportToPS.output_name_ this <> EmptyString
    /\ DVIExportToPS.printer_ this = printer
    /\ (evs = []
        \/ evs = choice_events (fs w) (suggested_name (filename dvi) ".ps")
                   Msg.ps_filter (DVIExportToPS.output_name_ this))
    /\ DVIExport.process_ (DVIExportToPS.base this)
       = Some {| command := "dvips"; args := args;
                 workingDirectory := dirPath h (filename dvi);
                 normalExit := false; exitStatus := 0 |}
    /\ DVIExportToPS.tmpfile_name_ this = (if rewrite then tmp else EmptyString)
    /\ fs w' = (if rewrite then delete tmp (fs w) else fs w)
    /\ emitted w w'
       = evs
         ++ (if rewrite then [TemporaryFile tmp; SaveAs tmp; Remove tmp] else [])
         ++ InfoDialog (Msg.export_to_ps (filename dvi)) true
         :: start_events h "dvips" args (dirPath h (filename dvi)).
Proof.
  intros Hnew Hp.
  destruct (ps_new_inv _ _ _ _ _ _ _ Hnew Hp)
    as (dvi & out & evs & Hdvi & Hchk & Hne & Hcases & Hl).
  apply launch_spec in Hl. cbv zeta in Hl.
  cbn [ps_ready after_events DVIExportToPS.printer_ DVIExportToPS.output_name_
       DVIExportToPS.tmpfile_name_ fs parent trace] in Hl.
  destruct Hl as (Hproc & _ & Hpr & Hon & Htmp & Hfs & _ & _ & Htr).
  exists dvi, evs. cbv zeta. rewrite Hon, Hpr.
  refine (conj Hdvi (conj Hchk (conj Hne (conj eq_refl
            (conj _ (conj Hproc (conj Htmp (conj Hfs _)))))))).
  - destruct Hcases as [(_ & _ & ->) | (_ & -> & -> & _)]; auto.
  - apply emitted_after. now rewrite Htr, <- app_assoc.
Qed.

(** Conversely, a request that passes the checks and comes with an
    output name does reach the start of dvips. *)
Lemma ps_launches (h : Host) (output_name : string) (options : list string)
    (printer : option KPrinter) (w : World) (dvi : dvifile) :
  dviFile (parent w) = Some dvi ->
  ps_checks_pass h (fs w) dvi = true ->
  output_name <> EmptyString ->
  is_Some (DVIExport.process_
             (DVIExportToPS.base
                (fst (DVIExportToPS.new h output_name options printer w)))).
Proof.
  intros Hdvi Hchk Hout. unfold DVIExportToPS.new. rewrite Hdvi.
  unfold ps_checks_pass in Hchk.
  apply andb_true_iff in Hchk as [Hchk E5]. apply andb_true_iff in Hchk as [Hchk E4].
  apply andb_true_iff in Hchk as [Hchk E3]. apply andb_true_iff in Hchk as [E1 E2].
  apply negb_true_iff in E3. apply isEmpty_false in Hout.
  rewrite E1, E2, E3, E4, E5, Hout. cbn [negb orb].
  match goal with
  | |- context [DVIExportToPS.launch ?a ?b ?c ?d ?e] =>
      destruct (DVIExportToPS.launch a b c d e) as [this w'] eqn:Hl
  end.
  apply launch_spec in Hl. cbv zeta in Hl. destruct Hl as (Hp & _).
  cbn [fst]. rewrite Hp. eauto.
Qed.



(** ** The confirmation before overwriting *)

Ltac use_start H :=
  match type of H with
  | DVIExport.start ?h ?c ?a ?d ?m ?t ?w0 = (?b, ?w1) =>
      let Hs := fresh "Hs" in
      pose proof (start_spec h c a d m t w0) as Hs;
      rewrite H in Hs; cbn [fst snd] in Hs;
      cbn [trace emit fs parent] in Hs;
      rewrite <- ?app_assoc in Hs
  end.

Lemma start_events_spawn (h : Host) (command : string) (args : list string)
    (wd : string) :
  In (Spawn command args wd) (start_events h command args wd)
  /\ forall name, ~ In (OverwriteDialog name) (start_events h command args wd).
Proof.
  unfold start_events. split; [now left |].
  intros name. destruct (process_start h command args); cbn; intuition discriminate.
Qed.

(** What the PDF constructor does once its checks have passed and the
    user has given a name. *)
Lemma pdf_interactive (h : Host) (w w' : World) (this : DVIExport.t) (dvi : dvifile) :
  DVIExportToPDF.new h w = (this, w') ->
  dviFile (parent w) = Some dvi ->
  pdf_checks_pass h (fs w) dvi = true ->
  let suggested := suggested_name (filename dvi) ".pdf" in
  let out := getSaveFileName h suggested Msg.pdf_filter in
  out <> EmptyString ->
  (exists_ (fs w) out = false /\ warningContinueCancel h out = Cancel
   /\ DVIExport.process_ this = None
   /\ emitted w w' = choice_events (fs w) suggested Msg.pdf_filter out)
  \/ ((exists_ (fs w) out = true \/ warningContinueCancel h out = Continue)
      /\ DVIExport.process_ this
         = Some {| command := "dvipdfm"; args := ["-o"; out; filename dvi];
                   workingDirectory := dirPath h (filename dvi);
                   normalExit := false; exitStatus := 0 |}
      /\ fs w' = fs w
      /\ emitted w w'
         = choice_events (fs w) suggested Msg.pdf_filter out
           ++ InfoDialog (Msg.export_to_pdf (filename dvi)) true
           :: start_events h "dvipdfm" ["-o"; out; filename dvi]
                (dirPath h (filename dvi))).
Proof.
  intros Hnew Hdvi Hchk suggested out Hout.
  unfold DVIExportToPDF.new in Hnew. rewrite Hdvi in Hnew.
  unfold pdf_checks_pass in Hchk.
  apply andb_true_iff in Hchk as [Hchk E3]. apply andb_true_iff in Hchk as [E1 E2].
  rewrite E1, E2, E3 in Hnew. cbn [negb orb] in Hnew.
  fold suggested in Hnew. fold out in Hnew.
  apply isEmpty_false in Hout. rewrite Hout in Hnew.
  cbn [fs emit] in Hnew. unfold choice_events.
  destruct (exists_ (fs w) out) eqn:He; cbn [negb] in Hnew.
  - right. use_start Hnew. destruct Hs as (Hp & _ & _ & _ & Hfs & _ & Htr).
    rewrite (emitted_after _ _ _ Htr). auto.
  - destruct (warningContinueCancel h out) eqn:Hw.
    + right. use_start Hnew. destruct Hs as (Hp & _ & _ & _ & Hfs & _ & Htr).
      rewrite (emitted_after _ _ _ Htr). auto.
    + left. inversion Hnew; subst. events. auto.
Qed.

(** The same for the PostScript constructor called without an output name. *)
Lemma ps_interactive (h : Host) (options : list string) (printer : option KPrinter)
    (w w' : World) (this : DVIExportToPS.t) (dvi : dvifile) :
  DVIExportToPS.new h EmptyString options printer w = (this, w') ->
  dviFile (parent w) = Some dvi ->
  ps_checks_pass h (fs w) dvi = true ->
  let suggested := suggested_name (filename dvi) ".ps" in
  let out := getSaveFileName h suggested Msg.ps_filter in
  out <> EmptyString ->
  (exists_ (fs w) out = false /\ warningContinueCancel h out = Cancel
   /\ DVIExport.process_ (DVIExportToPS.base this) = None
   /\ emitted w w' = choice_events (fs w) suggested Msg.ps_filter out)
  \/ ((exists_ (fs w) out = true \/ warningContinueCancel h out = Continue)
      /\ DVIExportToPS.launch h dvi options (ps_ready printer out)
           (after_events (choice_events (fs w) suggested Msg.ps_filter out) w)
         = (this, w')).
Proof.
  intros Hnew Hdvi Hchk suggested out Hout.
  unfold DVIExportToPS.new in Hnew. rewrite Hdvi in Hnew.
  unfold ps_checks_pass in Hchk.
  apply andb_true_iff in Hchk as [Hchk E5]. apply andb_true_iff in Hchk as [Hchk E4].
  apply andb_true_iff in Hchk as [Hchk E3]. apply andb_true_iff in Hchk as [E1 E2].
  apply negb_true_iff in E3.
  rewrite E1, E2, E3, E4, E5 in Hnew. cbn [negb orb QStr.isEmpty] in Hnew.
  cbn [DVIExportToPS.with_output_name DVIExportToPS.output_name_
       DVIExportToPS.base DVIExportToPS.printer_ DVIExportToPS.tmpfile_name_ fs emit]
    in Hnew.
  fold suggested in Hnew. fold out in Hnew.
  apply isEmpty_false in Hout. rewrite Hout in Hnew. unfold choice_events.
  destruct (exists_ (fs w) out) eqn:He; cbn [negb] in Hnew.
  - right. split; [now left | exact Hnew].
  - destruct (warningContinueCancel h out) eqn:Hw.
    + right. rewrite emit_twice in Hnew. split; [now right | exact Hnew].
    + left. inversion Hnew; subst. events. auto.
Qed.

Lemma choice_events_overwrite (fs : FileSystem) (suggested filter out : string) :
  overwrite_requests (choice_events fs suggested filter out)
  = if exists_ fs out then [] else [out].
Proof. unfold choice_events. now destruct (exists_ fs out). Qed.

Lemma start_events_overwrite (h : Host) (command : string) (args : list string)
    (wd : string) :
  overwrite_requests (start_events h command args wd) = [].
Proof. unfold start_events. now destruct (process_start h command args). Qed.

Lemma overwrite_requests_app (l1 l2 : list Event) :
  overwrite_requests (l1 ++ l2) = overwrite_requests l1 ++ overwrite_requests l2.
Proof. apply flat_map_app. Qed.

(** C10: where the output file is chosen in the dialog, the question
    whether to overwrite is put exactly when the chosen file does not
    exist.  When the file exists nothing is asked and the converter is
    started with that file as its output. *)
Theorem overwrite_confirmation_inverted (h : Host) :
  (forall (w w' : World) (this : DVIExport.t) (dvi : dvifile),
      DVIExportToPDF.new h w = (this, w') ->
      dviFile (parent w) = Some dvi ->
      pdf_checks_pass h (fs w) dvi = true ->
      let out := getSaveFileName h (suggested_name (filename dvi) ".pdf")
                   Msg.pdf_filter in
      out <> EmptyString ->
      overwrite_requests (emitted w w') = (if exists_ (fs w) out then [] else [out])
      /\ (exists_ (fs w) out = true ->
          In (Spawn "dvipdfm" ["-o"; out; filename dvi] (dirPath h (filename dvi)))
            (emitted w w')))
  /\ (forall (options : list string) (printer : option KPrinter) (w w' : World)
        (this : DVIExportToPS.t) (dvi : dvifile),
      DVIExportToPS.new h EmptyString options printer w = (this, w') ->
      dviFile (parent w) = Some dvi ->
      ps_checks_pass h (fs w) dvi = true ->
      let out := getSaveFileName h (suggested_name (filename dvi) ".ps")
                   Msg.ps_filter in
      out <> EmptyString ->
      overwrite_requests (emitted w w') = (if exists_ (fs w) out then [] else [out])
      /\ (exists_ (fs w) out = true ->
          exists input_name,
            In (Spawn "dvips"
                  (hyperlink_flag printer ++ options ++ [input_name; "-o"; out])
                  (dirPath h (filename dvi)))
              (emitted w w'))).
Proof.
  split.
  - intros w w' this dvi Hnew Hdvi Hchk out Hout.
    destruct (pdf_interactive _ _ _ _ _ Hnew Hdvi Hchk Hout)
      as [(He & _ & _ & Hem) | (_ & _ & _ & Hem)];
      cbv zeta in *; subst out; rewrite Hem.
    + rewrite choice_events_overwrite. split; [reflexivity | congruence].
    + rewrite overwrite_requests_app, choice_events_overwrite.
      cbn [overwrite_requests flat_map app].
      match goal with
      | |- context [flat_map ?f (start_events ?a ?b ?c ?d)] =>
          change (flat_map f (start_events a b c d))
            with (overwrite_requests (start_events a b c d))
      end.
      rewrite start_events_overwrite, app_nil_r. split; [reflexivity |].
      intros _. apply in_or_app. right. right. apply start_events_spawn.
  - intros options printer w w' this dvi Hnew Hdvi Hchk out Hout.
    destruct (ps_interactive _ _ _ _ _ _ _ Hnew Hdvi Hchk Hout)
      as [(He & _ & _ & Hem) | (_ & Hl)]; cbv zeta in *; subst out.
    + rewrite Hem, choice_events_overwrite. split; [reflexivity | congruence].
    + apply launch_spec in Hl. cbv zeta in Hl.
      cbn [ps_ready after_events DVIExportToPS.printer_ DVIExportToPS.output_name_
           DVIExportToPS.tmpfile_name_ fs parent trace] in Hl.
      destruct Hl as (_ & _ & _ & _ & _ & _ & _ & _ & Htr).
      rewrite <- app_assoc in Htr. rewrite (emitted_after _ _ _ Htr).
      rewrite !overwrite_requests_app, choice_events_overwrite.
      split.
      * destruct (DVIExportToPS.needs_rewrite dvi options);
          cbn [overwrite_requests flat_map app];
          match goal with
          | |- context [flat_map ?f (start_events ?a ?b ?c ?d)] =>
              change (flat_map f (start_events a b c d))
                with (overwrite_requests (start_events a b c d))
          end;
          now rewrite start_events_overwrite, app_nil_r.
      * intros _. eexists. apply in_or_app. right. apply in_or_app. right.
        right. apply start_events_spawn.
Qed.

(** The PDF export asks when the suggested file is missing and does not
    ask when it exists. *)
Lemma overwrite_confirmation_inverted_witness :
  let missing := Example.world_on Example.fs0 Example.doc in
  let present := Example.world_on Example.fs1 Example.doc in
  overwrite_requests (emitted missing (snd (DVIExportToPDF.new Example.host missing)))
  = ["/home/u/report.pdf"]
  /\ overwrite_requests (emitted present (snd (DVIExportToPDF.new Example.host present)))
     = []
  /\ In (Spawn "dvipdfm" ["-o"; "/home/u/report.pdf"; "/home/u/report.v2.dvi"] "/home/u")
       (emitted present (snd (DVIExportToPDF.new Example.host present))).
Proof.
  intros missing present.
  destruct (proj1 (overwrite_confirmation_inverted Example.host) missing
              (snd (DVIExportToPDF.new Example.host missing))
              (fst (DVIExportToPDF.new Example.host missing)) Example.doc
              (surjective_pairing _) eq_refl eq_refl ltac:(discriminate))
    as [Hasked _].
  destruct (proj1 (overwrite_confirmation_inverted Example.host) present
              (snd (DVIExportToPDF.new Example.host present))
              (fst (DVIExportToPDF.new Example.host present)) Example.doc
              (surjective_pairing _) eq_refl eq_refl ltac:(discriminate))
    as [Hquiet Hruns].
  split; [exact Hasked | split; [exact Hquiet | exact (Hruns eq_refl)]].
Defined.

(** ** The invocation of the converters *)

(** A PDF export that has a process object passed its checks, was given
    a name by the user, and started dvipdfm. *)
Lemma pdf_launched (h : Host) (w w' : World) (this : DVIExport.t) :
  DVIExportToPDF.new h w = (this, w') ->
  is_Some (DVIExport.process_ this) ->
  exists dvi,
    let out := getSaveFileName h (suggested_name (filename dvi) ".pdf")
                 Msg.pdf_filter in
    dviFile (parent w) = Some dvi
    /\ pdf_checks_pass h (fs w) dvi = true
    /\ out <> EmptyString
    /\ DVIExport.process_ this
       = Some {| command := "dvipdfm"; args := ["-o"; out; filename dvi];
                 workingDirectory := dirPath h (filename dvi);
                 normalExit := false; exitStatus := 0 |}
    /\ fs w' = fs w
    /\ In (Spawn "dvipdfm" ["-o"; out; filename dvi] (dirPath h (filename dvi)))
         (emitted w w').
Proof.
  intros Hnew [p Hp]. pose proof Hnew as Hcopy.
  unfold DVIExportToPDF.new in Hnew.
  destruct (dviFile (parent w)) as [dvi |] eqn:Hdvi;
    [| inversion Hnew; subst; discriminate].
  destruct (exists_ (fs w) (filename dvi)) eqn:E1;
    [| inversion Hnew; subst; discriminate].
  destruct (readable (fs w) (filename dvi)) eqn:E2;
    [| inversion Hnew; subst; discriminate].
  destruct (find_exe h (fs w) "dvipdfm") eqn:E3;
    [| inversion Hnew; subst; discriminate].
  cbn [negb orb] in Hnew.
  destruct (QStr.isEmpty (getSaveFileName h (suggested_name (filename dvi) ".pdf")
                            Msg.pdf_filter)) eqn:Hout;
    [inversion Hnew; subst; discriminate |].
  apply isEmpty_false in Hout. clear Hnew.
  assert (Hchk : pdf_checks_pass h (fs w) dvi = true)
    by (unfold pdf_checks_pass; now rewrite E1, E2, E3).
  exists dvi. cbv zeta.
  destruct (pdf_interactive _ _ _ _ _ Hcopy Hdvi Hchk Hout)
    as [(_ & _ & Hnone & _) | (_ & Hproc & Hfs & Hem)]; [congruence |].
  repeat split; auto.
  rewrite Hem. apply in_or_app. right. right. apply start_events_spawn.
Qed.

(** C8, as the code has it: dvipdfm is started with [-o], the output
    file the user chose in the dialog and the document; dvips with [-z]
    (unless a printer is the target), the options, its input file, [-o]
    and the output file, which is the one given to the constructor or,
    without one, the one chosen in the dialog.  The input file of dvips is
    the temporary copy when one was made and the document otherwise.  In
    both cases the working directory is the directory of the document: it
    is the directory of the input file of dvips only when no copy was
    made. *)
Theorem converter_invocation (h : Host) :
  (forall (w w' : World) (this : DVIExport.t) (p : Process),
      DVIExportToPDF.new h w = (this, w') ->
      DVIExport.process_ this = Some p ->
      exists dvi,
        let output_name :=
          getSaveFileName h (suggested_name (filename dvi) ".pdf") Msg.pdf_filter in
        dviFile (parent w) = Some dvi
        /\ output_name <> EmptyString
        /\ command p = "dvipdfm"
        /\ args p = ["-o"; output_name; filename dvi]
        /\ workingDirectory p = dirPath h (filename dvi)
        /\ In (Spawn (command p) (args p) (workingDirectory p)) (emitted w w'))
  /\ (forall (output_name : string) (options : list string)
        (printer : option KPrinter) (w w' : World) (this : DVIExportToPS.t)
        (p : Process),
      DVIExportToPS.new h output_name options printer w = (this, w') ->
      DVIExport.process_ (DVIExportToPS.base this) = Some p ->
      exists dvi input_name,
        dviFile (parent w) = Some dvi
        /\ command p = "dvips"
        /\ args p = hyperlink_flag printer ++ options
                    ++ [input_name; "-o"; DVIExportToPS.output_name_ this]
        /\ DVIExportToPS.output_name_ this <> EmptyString
        /\ (output_name <> EmptyString ->
            DVIExportToPS.output_name_ this = output_name)
        /\ (output_name = EmptyString ->
            DVIExportToPS.output_name_ this
            = getSaveFileName h (suggested_name (filename dvi) ".ps") Msg.ps_filter)
        /\ input_name
           = (if DVIExportToPS.needs_rewrite dvi options
              then DVIExportToPS.tmpfile_name_ this else filename dvi)
        /\ (DVIExportToPS.needs_rewrite dvi options = true ->
            DVIExportToPS.tmpfile_name_ this = temporaryFileName h (fs w))
        /\ workingDirectory p = dirPath h (filename dvi)
        /\ (DVIExportToPS.needs_rewrite dvi options = false ->
            workingDirectory p = dirPath h input_name)
        /\ In (Spawn (command p) (args p) (workingDirectory p)) (emitted w w')).
Proof.
  split.
  - intros w w' this p Hnew Hp.
    destruct (pdf_launched _ _ _ _ Hnew (ex_intro _ p Hp))
      as (dvi & Hdvi & _ & Hout & Hproc & _ & Hin).
    cbv zeta in *. rewrite Hp in Hproc. inversion Hproc; subst p; clear Hproc.
    exists dvi. cbn [command args workingDirectory].
    repeat split; [exact Hdvi | exact Hout | exact Hin].
  - intros output_name options printer w w' this p Hnew Hp.
    destruct (ps_launched _ _ _ _ _ _ _ Hnew (ex_intro _ p Hp))
      as (dvi & evs & Hdvi & _ & Hname & _ & _ & Hproc & Htmp & _ & Hem).
    destruct (ps_new_inv _ _ _ _ _ _ _ Hnew (ex_intro _ p Hp))
      as (dvi' & out & evs' & Hdvi' & _ & _ & Hcases & Hl).
    cbv zeta in *. rewrite Hdvi in Hdvi'. inversion Hdvi'; subst dvi'; clear Hdvi'.
    apply launch_spec in Hl. cbv zeta in Hl.
    destruct Hl as (_ & _ & _ & Hout & _).
    cbn [ps_ready DVIExportToPS.output_name_] in Hout.
    rewrite Hp in Hproc. inversion Hproc; subst p; clear Hproc.
    exists dvi. eexists. cbn [command args workingDirectory].
    split; [exact Hdvi |]. split; [reflexivity |]. split; [reflexivity |].
    split; [exact Hname |].
    split; [| split; [| split; [| split; [| split; [reflexivity | split]]]]].
    + intros Hgiven. destruct Hcases as [(_ & -> & _) | (Hempty & _)]; congruence.
    + intros Hempty. destruct Hcases as [(Hgiven & _) | (_ & -> & _)]; congruence.
    + rewrite Htmp. now destruct (DVIExportToPS.needs_rewrite dvi options).
    + intros Hrw. now rewrite Htmp, Hrw.
    + now intros ->.
    + rewrite Hem. apply in_or_app. right. apply in_or_app. right. right.
      apply start_events_spawn.
Qed.

(** The two converters as they are started for the example document. *)
Lemma converter_invocation_witness :
  let w := Example.world Example.doc in
  let pdf := DVIExportToPDF.new Example.host w in
  let ps := DVIExportToPS.new Example.host "/home/u/out.ps" ["-pp"; "3"] None w in
  In (Spawn "dvipdfm" ["-o"; "/home/u/report.pdf"; "/home/u/report.v2.dvi"] "/home/u")
    (emitted w (snd pdf))
  /\ In (Spawn "dvips" ["-z"; "-pp"; "3"; "/tmp/qt_temp.a1"; "-o"; "/home/u/out.ps"]
           "/home/u")
       (emitted w (snd ps)).
Proof.
  intros w pdf ps. split.
  - destruct (proj1 (converter_invocation Example.host) w (snd pdf) (fst pdf)
                {| command := "dvipdfm";
                   args := ["-o"; "/home/u/report.pdf"; "/home/u/report.v2.dvi"];
                   workingDirectory := "/home/u";
                   normalExit := false; exitStatus := 0 |}
                (surjective_pairing pdf) eq_refl)
      as (dvi & _ & _ & _ & _ & _ & Hin).
    exact Hin.
  - destruct (proj2 (converter_invocation Example.host) "/home/u/out.ps"
                ["-pp"; "3"] None w (snd ps) (fst ps)
                {| command := "dvips";
                   args := ["-z"; "-pp"; "3"; "/tmp/qt_temp.a1"; "-o"; "/home/u/out.ps"];
                   workingDirectory := "/home/u";
                   normalExit := false; exitStatus := 0 |}
                (surjective_pairing ps) eq_refl)
      as (dvi & input_name & _ & _ & _ & _ & _ & _ & _ & _ & _ & _ & Hin).
    exact Hin.
Defined.

(** C8 as it is worded fails where a temporary copy is the input of
    dvips: the arguments are in the order given, but the working
    directory is that of the document, not that of the input file. *)
Lemma converter_invocation_counterexample :
  let r := DVIExportToPS.new Example.host "/home/u/out.ps" ["-pp"; "3"] None
             (Example.world Example.doc) in
  exists (p : Process) (input_path : string),
    DVIExport.process_ (DVIExportToPS.base (fst r)) = Some p
    /\ command p = "dvips"
    /\ args p = ["-z"] ++ ["-pp"; "3"] ++ [input_path; "-o"; "/home/u/out.ps"]
    /\ workingDirectory p = "/home/u"
    /\ dirPath Example.host input_path = "/tmp"
    /\ workingDirectory p <> dirPath Example.host input_path.
Proof.
  intros r. eexists. exists "/tmp/qt_temp.a1".
  split; [reflexivity |]. repeat split. discriminate.
Qed.

(** ** Documents without a page table *)

(** C7, as the code has it: with an empty page table the PostScript
    constructor returns at once, leaving the object as it was made and the
    world untouched: no rewriting, no temporary file, no dialog and no
    converter.  The number of pages plays no part: an export that is
    launched has a page table that is not empty, and has made a temporary
    copy exactly when the rewriting decision asks for one, also for a
    document without pages. *)
Theorem ps_empty_page_table_abandons (h : Host) (output_name : string)
    (options : list string) (printer : option KPrinter) (w : World)
    (dvi : dvifile) :
  dviFile (parent w) = Some dvi ->
  (page_offset dvi = [] ->
     DVIExportToPS.new h output_name options printer w
     = (ps_ready printer EmptyString, w))
  /\ (forall (w' : World) (this : DVIExportToPS.t),
        DVIExportToPS.new h output_name options printer w = (this, w') ->
        is_Some (DVIExport.process_ (DVIExportToPS.base this)) ->
        page_offset dvi <> []
        /\ existsb is_TemporaryFile (emitted w w')
           = DVIExportToPS.needs_rewrite dvi options).
Proof.
  intros Hdvi. split.
  - intros Hempty. unfold DVIExportToPS.new. rewrite Hdvi, Hempty.
    now destruct (negb (exists_ (fs w) (filename dvi))
                  || negb (readable (fs w) (filename dvi))).
  - intros w' this Hnew Hp.
    destruct (ps_launched _ _ _ _ _ _ _ Hnew Hp)
      as (dvi' & evs & Hd & Hchk & _ & _ & Hevs & _ & _ & _ & Hem).
    cbv zeta in *. rewrite Hdvi in Hd. inversion Hd; subst dvi'; clear Hd.
    split.
    + unfold ps_checks_pass in Hchk. intros Hempty. rewrite Hempty in Hchk.
      cbn [negb] in Hchk. rewrite !andb_false_r in Hchk. discriminate.
    + assert (Hquiet : existsb is_TemporaryFile evs = false).
      { destruct Hevs as [-> | ->]; [reflexivity | apply choice_events_no_file]. }
      rewrite Hem, !existsb_app, Hquiet.
      cbn [existsb is_TemporaryFile orb]. rewrite start_events_no_file.
      now destruct (DVIExportToPS.needs_rewrite dvi options).
Qed.

(** The example document without its page table. *)
Lemma ps_empty_page_table_abandons_witness :
  DVIExportToPS.new Example.host "/home/u/out.ps" ["-pp"; "3"] None
    (Example.world Example.doc_without_page_table)
  = (ps_ready None EmptyString, Example.world Example.doc_without_page_table).
Proof.
  apply (proj1 (ps_empty_page_table_abandons Example.host "/home/u/out.ps"
                  ["-pp"; "3"] None (Example.world Example.doc_without_page_table)
                  Example.doc_without_page_table eq_refl)).
  reflexivity.
Defined.

(** C7 as it is worded fails: with an empty page table nothing is
    exported at all, and a document without pages is rewritten like any
    other when options are given. *)
Lemma ps_empty_page_table_counterexample :
  let w := Example.world Example.doc_without_page_table in
  let r := DVIExportToPS.new Example.host "/home/u/out.ps" [] None w in
  let w0 := Example.world Example.doc_without_pages in
  let r0 := DVIExportToPS.new Example.host "/home/u/out.ps" ["-pp"; "3"] None w0 in
  (page_offset Example.doc_without_page_table = []
   /\ total_pages Example.doc_without_page_table = 0
   /\ DVIExport.process_ (DVIExportToPS.base (fst r)) = None
   /\ existsb is_Spawn (emitted w (snd r)) = false)
  /\ (total_pages Example.doc_without_pages = 0
      /\ existsb is_TemporaryFile (emitted w0 (snd r0)) = true
      /\ exists p, DVIExport.process_ (DVIExportToPS.base (fst r0)) = Some p
                   /\ args p = ["-z"; "-pp"; "3"; "/tmp/qt_temp.a1"; "-o";
                                "/home/u/out.ps"]).
Proof.
  intros w r w0 r0. split.
  - repeat split; reflexivity.
  - split; [reflexivity |]. split; [reflexivity |]. eexists. split; reflexivity.
Qed.

(** ** The end of an export *)

Lemma reports_failure_progress (h : Host) (exit_code : Z) (this : DVIExport.t)
    (d : option fontProgressDialog) :
  DVIExport.reports_failure h exit_code (DVIExport.with_progress d this)
  = DVIExport.reports_failure h exit_code this.
Proof. reflexivity. Qed.

(** The events of [finished_impl]. *)
Lemma finished_impl_events (h : Host) (exit_code : Z) (this : DVIExport.t) (w : World) :
  let r := DVIExport.finished_impl h exit_code this w in
  emitted w (snd r)
  = (if DVIExport.reports_failure h exit_code this
     then [Error (DVIExport.error_message_ this)] else [])
    ++ [ExportFinished]
  /\ fs (snd r) = fs w
  /\ DVIExport.process_ (fst r) = DVIExport.process_ this.
Proof.
  unfold DVIExport.finished_impl.
  destruct (DVIExport.progress_ this) as [d |];
    rewrite ?reports_failure_progress;
    destruct (DVIExport.reports_failure h exit_code this);
    cbn [fst snd]; repeat split; events; reflexivity.
Qed.

(** C6, as the code has it: the finish handler reports the failure, with
    the message given to [start], exactly when the process object is
    still there and the child ended badly, which means a non-zero exit
    code with [DVIEXPORT_USE_QPROCESS] and a normal exit with a non-zero
    status without it.  The owner is told that the export has finished in
    every case, after the report if there is one. *)
Theorem finished_reports_failure (h : Host) (exit_code : Z) (this : DVIExport.t)
    (w : World) :
  let r := DVIExport.finished_impl h exit_code this w in
  let failed :=
    exists p, DVIExport.process_ this = Some p
              /\ (if use_qprocess h then exit_code <> 0
                  else normalExit p = true /\ exitStatus p <> 0) in
  (In (Error (DVIExport.error_message_ this)) (emitted w (snd r)) <-> failed)
  /\ (forall text, In (Error text) (emitted w (snd r)) ->
                   text = DVIExport.error_message_ this)
  /\ In ExportFinished (emitted w (snd r))
  /\ last (emitted w (snd r)) = Some ExportFinished.
Proof.
  intros r failed.
  destruct (finished_impl_events h exit_code this w) as (Hem & _ & _).
  fold r in Hem. rewrite Hem. clear Hem.
  assert (Hfailed : DVIExport.reports_failure h exit_code this = true <-> failed).
  { unfold DVIExport.reports_failure, failed.
    destruct (DVIExport.process_ this) as [p |].
    - destruct (use_qprocess h).
      + rewrite negb_true_iff, Z.eqb_neq. split; [eauto | now intros (? & _ & ?)].
      + rewrite andb_true_iff, negb_true_iff, Z.eqb_neq.
        split; [eauto |]. intros (q & Hq & Hbad). now inversion Hq; subst.
    - split; [discriminate | intros (? & ? & _); discriminate]. }
  destruct (DVIExport.reports_failure h exit_code this); cbn [app In last].
  - repeat split; auto.
    + intros _. now apply Hfailed.
    + intros text [Ht | [Ht | []]]; congruence.
  - repeat split; auto.
    + intros [Ht | []]. discriminate.
    + intros Hf. apply Hfailed in Hf. discriminate.
    + intros text [Ht | []]. discriminate.
Qed.

(** C6 as it is worded fails: a child that has not exited normally, and a
    child whose export was aborted before the notification arrived, are
    not reported, whatever their exit status. *)
Lemma finished_reports_failure_counterexample :
  let w := Example.world Example.doc in
  let export := fst (DVIExportToPDF.new Example.host w) in
  let killed := DVIExport.process_exited false 1 export in
  let aborted := fst (DVIExport.abort_process_impl export w) in
  (exists p, DVIExport.process_ killed = Some p /\ exitStatus p = 1
             /\ existsb is_Error
                  (emitted w (snd (DVIExport.finished_impl Example.host 1 killed w)))
                = false)
  /\ DVIExport.process_ aborted = None
  /\ existsb is_Error
       (emitted w (snd (DVIExport.finished_impl Example.qprocess_host 1 aborted w)))
     = false
  /\ existsb is_Error
       (emitted w (snd (DVIExport.finished_impl Example.host 1 aborted w)))
     = false.
Proof.
  intros w export killed aborted. split.
  - eexists. repeat split; reflexivity.
  - repeat split; reflexivity.
Qed.

(** A child started by the PDF export that exits normally with status 1
    is reported with the message of dvipdfm. *)
Lemma finished_reports_failure_witness :
  let w := Example.world Example.doc in
  let export := DVIExportToPDF.new Example.host w in
  let failed := DVIExport.process_exited true 1 (fst export) in
  In (Error Msg.dvipdfm_failed)
    (emitted (snd export)
       (snd (DVIExport.finished_impl Example.host 1 failed (snd export)))).
Proof.
  intros w export failed.
  apply (proj1 (finished_reports_failure Example.host 1 failed (snd export))).
  eexists. split; [reflexivity |]. split; [reflexivity | discriminate].
Defined.

(** C3: once [abort_process_impl] has run, the process object is gone,
    and a finish notification that is still delivered, whatever the child
    reports, shows no failure to the user (and prints nothing): all it
    does is tell the owner that the export has finished. *)
Theorem abort_suppresses_finish (h : Host) (normal : bool) (status exit_code : Z) :
  (forall (this : DVIExport.t) (w : World),
      let a := DVIExport.abort_process_impl this w in
      let f := DVIExport.finished_impl h exit_code
                 (DVIExport.process_exited normal status (fst a)) (snd a) in
      DVIExport.process_ (fst a) = None
      /\ DVIExport.progress_ (fst a) = None
      /\ DVIExport.process_ (fst f) = None
      /\ emitted (snd a) (snd f) = [ExportFinished])
  /\ (forall (this : DVIExportToPS.t) (w : World),
      let a := DVIExportToPS.abort_process_impl this w in
      let f := DVIExportToPS.finished_impl h exit_code
                 (DVIExportToPS.with_base
                    (DVIExport.process_exited normal status
                       (DVIExportToPS.base (fst a))) (fst a))
                 (snd a) in
      DVIExport.process_ (DVIExportToPS.base (fst a)) = None
      /\ DVIExportToPS.printer_ (fst a) = None
      /\ DVIExport.process_ (DVIExportToPS.base (fst f)) = None
      /\ emitted (snd a) (snd f) = [ExportFinished]).
Proof.
  split.
  - intros this w a f. subst f a.
    unfold DVIExport.abort_process_impl, DVIExport.finished_impl,
      DVIExport.process_exited, DVIExport.reports_failure.
    cbn [fst snd DVIExport.process_ DVIExport.progress_ DVIExport.with_process
         DVIExport.with_progress].
    repeat split. events. reflexivity.
  - intros this w a f. subst f a.
    unfold DVIExportToPS.abort_process_impl, DVIExportToPS.finished_impl,
      DVIExport.abort_process_impl, DVIExport.finished_impl,
      DVIExport.process_exited, DVIExport.reports_failure.
    destruct (negb (QStr.isEmpty (DVIExportToPS.tmpfile_name_ this)));
      cbn [fst snd DVIExport.process_ DVIExport.progress_ DVIExport.with_process
           DVIExport.with_progress DVIExportToPS.base DVIExportToPS.printer_
           DVIExportToPS.with_base DVIExportToPS.with_tmpfile_name];
      (repeat split; events; reflexivity).
Qed.

(** ** The temporary file at the end of an export *)

(** The abort path removes the temporary file and forgets its name. *)
Lemma abort_removes_temporary_file (this : DVIExportToPS.t) (w : World) :
  let a := DVIExportToPS.abort_process_impl this w in
  DVIExportToPS.tmpfile_name_ this <> EmptyString ->
  fs (snd a) = delete (DVIExportToPS.tmpfile_name_ this) (fs w)
  /\ fs (snd a) !! DVIExportToPS.tmpfile_name_ this = None
  /\ DVIExportToPS.tmpfile_name_ (fst a) = EmptyString.
Proof.
  intros a Hname. subst a. unfold DVIExportToPS.abort_process_impl.
  apply isEmpty_false in Hname. rewrite Hname. cbn [negb].
  unfold DVIExport.abort_process_impl.
  cbn [fst snd DVIExportToPS.base DVIExportToPS.with_base
       DVIExportToPS.with_tmpfile_name DVIExportToPS.tmpfile_name_].
  destruct (DVIExport.process_ _); cbn [fs emit set_fs];
    repeat split; apply lookup_delete_eq.
Qed.


(** * Further properties of the code *)

(** ** The search path *)

Lemma substring_all (s : string) : String.substring 0 (String.length s) s = s.
Proof. induction s as [| c s IH]; simpl; [reflexivity | now rewrite IH]. Qed.

Lemma substring_suffix (s suf : string) :
  String.substring (String.length s) (String.length suf) (s +:+ suf) = suf.
Proof.
  induction s as [| c s IH]; [apply substring_all | exact IH].
Qed.

Lemma endsWith_append (s suf : string) : QStr.endsWith suf (s +:+ suf) = true.
Proof.
  unfold QStr.endsWith. rewrite length_append.
  replace (String.length s + String.length suf - String.length suf)%nat
    with (String.length s) by lia.
  rewrite substring_suffix, String.eqb_refl, andb_true_r.
  apply Nat.leb_le. lia.
Qed.

Lemma split_cons (sep c : ascii) (s : string) :
  QStr.split sep (String c s)
  = if Ascii.eqb c sep then EmptyString :: QStr.split sep s
    else match QStr.split sep s with
         | [] => [String c EmptyString]
         | part :: parts => String c part :: parts
         end.
Proof. reflexivity. Qed.

Lemma split_length (sep : ascii) (s : string) :
  length (QStr.split sep s) = S (count_char sep s).
Proof.
  induction s as [| c s IH]; [reflexivity |].
  rewrite split_cons. cbn [count_char].
  pose proof (split_not_nil sep s) as Hnil.
  destruct (Ascii.eqb c sep); cbn [length]; [now rewrite IH |].
  destruct (QStr.split sep s) as [| p ps]; [congruence |].
  cbn [length] in *. lia.
Qed.

(** X1: [get_env_path] gives the empty list for a null or empty name and
    for a variable that is missing or empty.  For any other variable it
    gives one entry more than the value has separators; no entry holds a
    separator, and the entries joined by the separator are the value
    again, so empty entries are kept. *)
Theorem get_env_path_entries (h : Host) :
  get_env_path h None = []
  /\ get_env_path h (Some EmptyString) = []
  /\ (forall name, environ h !! name = None -> get_env_path h (Some name) = [])
  /\ (forall name, environ h !! name = Some EmptyString ->
                   get_env_path h (Some name) = [])
  /\ (forall name envvar,
        name <> EmptyString ->
        environ h !! name = Some envvar ->
        envvar <> EmptyString ->
        let path := get_env_path h (Some name) in
        length path = S (count_char (path_separator h) envvar)
        /\ Forall (fun it => occurs (path_separator h) it = false) path
        /\ join (path_separator h) path = envvar).
Proof.
  split; [reflexivity |]. split; [reflexivity |]. split; [| split].
  - intros name Henv. unfold get_env_path. rewrite Henv. now destruct (QStr.isEmpty name).
  - intros name Henv. unfold get_env_path. rewrite Henv. now destruct (QStr.isEmpty name).
  - intros name envvar Hname Henv Hvar path. subst path.
    unfold get_env_path. apply isEmpty_false in Hname, Hvar.
    rewrite Hname, Henv, Hvar.
    split; [apply split_length |].
    split; [apply split_parts_without_separator | apply join_split].
Qed.

(** A path with an empty entry in the middle. *)
Lemma get_env_path_entries_witness :
  get_env_path (with_environ (<["PATH" := "/a::/b"]> ∅) Example.host) (Some "PATH")
  = ["/a"; EmptyString; "/b"].
Proof.
  destruct (proj2 (proj2 (proj2 (proj2
              (get_env_path_entries
                 (with_environ (<["PATH" := "/a::/b"]> ∅) Example.host)))))
              "PATH" "/a::/b" ltac:(discriminate) eq_refl ltac:(discriminate))
    as (_ & _ & _).
  reflexivity.
Defined.

Lemma exe_name_idempotent (h : Host) (name : string) :
  exe_name h (exe_name h name) = exe_name h name.
Proof.
  unfold exe_name. destruct (win32 h); [| reflexivity].
  destruct (QStr.endsWith ".exe" name) eqn:He; [now rewrite He |].
  now rewrite endsWith_append.
Qed.

(** X2: on Windows [find_exe] looks for the same file whether or not
    the name carries the suffix [.exe]: a name without it resolves like
    the name with it, and a name that has it gets no second one.
    Elsewhere the name is used as it is. *)
Theorem find_exe_suffix (h : Host) (fs : FileSystem) (name : string) :
  find_exe h fs (exe_name h name) = find_exe h fs name
  /\ (win32 h = false -> exe_name h name = name)
  /\ (win32 h = true -> QStr.endsWith ".exe" (exe_name h name) = true)
  /\ (win32 h = true -> QStr.endsWith ".exe" name = false ->
      find_exe h fs (name +:+ ".exe") = find_exe h fs name).
Proof.
  split; [| split; [| split]].
  - unfold find_exe. now rewrite exe_name_idempotent.
  - intros Hw. unfold exe_name. now rewrite Hw.
  - intros Hw. unfold exe_name. rewrite Hw.
    destruct (QStr.endsWith ".exe" name) eqn:He; [exact He | apply endsWith_append].
  - intros Hw He. unfold find_exe.
    replace (exe_name h (name +:+ ".exe")) with (exe_name h name); [reflexivity |].
    unfold exe_name. now rewrite Hw, endsWith_append, He.
Qed.

(** On Windows [dvips] and [dvips.exe] are the same request. *)
Lemma find_exe_suffix_witness :
  find_exe Windows.host Windows.fs0 "dvips.exe" = find_exe Windows.host Windows.fs0 "dvips"
  /\ find_exe Windows.host Windows.fs0 "dvips" = true.
Proof.
  split; [| reflexivity].
  apply (proj2 (proj2 (proj2 (find_exe_suffix Windows.host Windows.fs0 "dvips"))));
    reflexivity.
Defined.

Lemma with_slash_endsWith (it : string) : QStr.endsWith "/" (with_slash it) = true.
Proof.
  unfold with_slash. destruct (QStr.endsWith "/" it) eqn:He;
    [exact He | apply endsWith_append].
Qed.

Lemma abs_exe_with_slash (exe it : string) :
  abs_exe exe (with_slash it) = abs_exe exe it.
Proof.
  unfold abs_exe at 1. rewrite with_slash_endsWith. reflexivity.
Qed.

(** X3: the search does not depend on whether the entries of the path
    end in a slash: an entry names the same candidate with and without
    it, so a path and the path with every entry completed by its slash
    resolve alike.  The empty entry names the root directory. *)
Theorem search_path_trailing_slash (fs : FileSystem) (exe : string)
    (path : list string) :
  search_path fs exe (map with_slash path) = search_path fs exe path
  /\ search_path fs exe (EmptyString :: path) = search_path fs exe ("/" :: path).
Proof.
  split; [| reflexivity].
  induction path as [| it path IH]; [reflexivity |].
  cbn [map search_path]. now rewrite abs_exe_with_slash, IH.
Qed.

(** ** The constructors, whatever way they end *)

Lemma after_own_events (w : World) (evs : list Event) (f : FileSystem)
    (r : dviRenderer) :
  f = fs w -> r = parent w ->
  {| fs := f; parent := r; trace := trace w ++ evs |} = after_events evs w.
Proof. now intros -> ->. Qed.

Lemma emitted_after_events (w : World) (evs : list Event) :
  emitted w (after_events evs w) = evs.
Proof. now apply emitted_after. Qed.

Lemma emitted_same (w : World) : emitted w w = [].
Proof. apply drop_own_length. Qed.

(** A PDF export without a process object has changed nothing but the
    trace, and stopped at one of four places. *)
Lemma pdf_stopped (h : Host) (w w' : World) (this : DVIExport.t) :
  DVIExportToPDF.new h w = (this, w') ->
  DVIExport.process_ this = None ->
  this = DVIExport.new
  /\ w' = after_events (emitted w w') w
  /\ (emitted w w' = []
      /\ (forall dvi, dviFile (parent w) = Some dvi ->
                      exists_ (fs w) (filename dvi) && readable (fs w) (filename dvi)
                      = false)
      \/ exists dvi,
           dviFile (parent w) = Some dvi
           /\ exists_ (fs w) (filename dvi) && readable (fs w) (filename dvi) = true
           /\ let out := getSaveFileName h (suggested_name (filename dvi) ".pdf")
                           Msg.pdf_filter in
              (find_exe h (fs w) "dvipdfm" = false
               /\ emitted w w' = [Sorry Msg.dvipdfm_missing]
               \/ find_exe h (fs w) "dvipdfm" = true
                  /\ (out = EmptyString
                      /\ emitted w w'
                         = [SaveFileDialog (suggested_name (filename dvi) ".pdf")
                              Msg.pdf_filter]
                      \/ out <> EmptyString
                         /\ exists_ (fs w) out = false
                         /\ warningContinueCancel h out = Cancel
                         /\ emitted w w'
                            = [SaveFileDialog (suggested_name (filename dvi) ".pdf")
                                 Msg.pdf_filter;
                               OverwriteDialog out]))).
Proof.
  intros Hnew Hp. unfold DVIExportToPDF.new in Hnew.
  destruct (dviFile (parent w)) as [dvi |] eqn:Hdvi.
  2:{ inversion Hnew; subst. rewrite emitted_same, after_no_events.
      repeat split. left. split; [reflexivity | discriminate]. }
  destruct (exists_ (fs w) (filename dvi) && readable (fs w) (filename dvi)) eqn:Hsrc.
  2:{ apply andb_false_iff in Hsrc.
      assert (Hguard : negb (exists_ (fs w) (filename dvi))
                       || negb (readable (fs w) (filename dvi)) = true)
        by (destruct Hsrc as [-> | ->]; cbn; auto using orb_true_r).
      rewrite Hguard in Hnew. inversion Hnew; subst.
      rewrite emitted_same, after_no_events. repeat split.
      left. split; [reflexivity |]. intros d Hd. inversion Hd; subst.
      apply andb_false_iff. exact Hsrc. }
  pose proof Hsrc as Hsrc'. apply andb_true_iff in Hsrc' as [E1 E2].
  rewrite E1, E2 in Hnew. cbn [negb orb] in Hnew.
  destruct (find_exe h (fs w) "dvipdfm") eqn:E3; cbn [negb] in Hnew.
  2:{ inversion Hnew; subst. events.
      split; [reflexivity | split; [reflexivity |]].
      right. exists dvi. cbv zeta. auto. }
  set (suggested := suggested_name (filename dvi) ".pdf") in *.
  set (out := getSaveFileName h suggested Msg.pdf_filter) in *.
  cbn [fs emit] in Hnew.
  destruct (QStr.isEmpty out) eqn:Hout.
  { apply isEmpty_true in Hout. inversion Hnew; subst. events.
    split; [reflexivity | split; [reflexivity |]].
    right. exists dvi. cbv zeta. fold suggested. fold out. auto 7. }
  apply isEmpty_false in Hout.
  destruct (exists_ (fs w) out) eqn:He; cbn [negb] in Hnew.
  { use_start Hnew. destruct Hs as (Hsome & _). congruence. }
  destruct (warningContinueCancel h out) eqn:Hw.
  { use_start Hnew. destruct Hs as (Hsome & _). congruence. }
  inversion Hnew; subst. events.
  split; [reflexivity | split].
  - unfold after_events, emit. cbn. now rewrite <- app_assoc.
  - right. exists dvi. cbv zeta. fold suggested. fold out. auto 9.
Qed.

Lemma world_after (w w' : World) (evs : list Event) :
  fs w' = fs w -> parent w' = parent w -> trace w' = trace w ++ evs ->
  w' = after_events evs w.
Proof. destruct w'. cbn. now intros -> -> ->. Qed.

(** The object and the world [start] returns. *)
Lemma start_state (h : Host) (command : string) (args : list string)
    (wd msg : string) (this : DVIExport.t) (w : World) :
  DVIExport.start h command args wd msg this w
  = ({| DVIExport.started_ := process_start h command args || DVIExport.started_ this;
        DVIExport.process_ :=
          Some {| command := command; args := args; workingDirectory := wd;
                  normalExit := false; exitStatus := 0 |};
        DVIExport.progress_ := DVIExport.progress_ this;
        DVIExport.error_message_ := msg |},
     after_events (start_events h command args wd) w).
Proof.
  unfold DVIExport.start, start_events, after_events, emit.
  destruct (process_start h command args); cbn [orb fs parent trace];
    now rewrite <- ?app_assoc.
Qed.

(** The progress dialog as [initialise_progress_dialog] makes it. *)
Lemma initial_progress (total_steps : Z) (label_text : string) (this : DVIExport.t) :
  DVIExport.progress_ (DVIExport.initialise_progress_dialog total_steps label_text this)
  = Some {| isVisible := false; totalSteps := total_steps;
            labelText := label_text; finished_connected := true |}.
Proof. reflexivity. Qed.

(** What [launch] leaves in the object and in the renderer besides what
    [launch_spec] tells. *)
Lemma launch_state (h : Host) (dvi : dvifile) (options : list string)
    (this this' : DVIExportToPS.t) (w w' : World) :
  DVIExportToPS.launch h dvi options this w = (this', w') ->
  (exists p, DVIExport.process_ (DVIExportToPS.base this') = Some p
             /\ DVIExport.started_ (DVIExportToPS.base this')
                = process_start h (command p) (args p)
                  || DVIExport.started_ (DVIExportToPS.base this))
  /\ (exists d, DVIExport.progress_ (DVIExportToPS.base this') = Some d
                /\ isVisible d = false /\ totalSteps d = total_pages dvi
                /\ finished_connected d = true)
  /\ errorMsg (parent w')
     = (if DVIExportToPS.needs_rewrite dvi options then EmptyString
        else errorMsg (parent w)).
Proof.
  unfold DVIExportToPS.launch.
  destruct (DVIExportToPS.needs_rewrite dvi options);
    [unfold DVIExportToPS.rewrite_input |];
    rewrite start_state; intros Hl; inversion Hl; subst; clear Hl;
    cbn; repeat split; eauto 8.
Qed.

(** A PostScript export without a process object has changed nothing but
    the trace and, when the user was asked, the output name it holds. *)
Lemma ps_stopped (h : Host) (output_name : string) (options : list string)
    (printer : option KPrinter) (w w' : World) (this : DVIExportToPS.t) :
  DVIExportToPS.new h output_name options printer w = (this, w') ->
  DVIExport.process_ (DVIExportToPS.base this) = None ->
  DVIExportToPS.base this = DVIExport.new
  /\ DVIExportToPS.printer_ this = printer
  /\ DVIExportToPS.tmpfile_name_ this = EmptyString
  /\ w' = after_events (emitted w w') w
  /\ (emitted w w' = [] /\ DVIExportToPS.output_name_ this = EmptyString
      /\ (forall dvi, dviFile (parent w) = Some dvi ->
            exists_ (fs w) (filename dvi) && readable (fs w) (filename dvi) = false
            \/ page_offset dvi = [])
      \/ exists dvi,
           dviFile (parent w) = Some dvi
           /\ exists_ (fs w) (filename dvi) && readable (fs w) (filename dvi) = true
           /\ page_offset dvi <> []
           /\ let out := getSaveFileName h (suggested_name (filename dvi) ".ps")
                           Msg.ps_filter in
              (numberOfExternalNONPSFiles dvi <> 0
               /\ DVIExportToPS.output_name_ this = EmptyString
               /\ emitted w w' = [Sorry Msg.non_ps_graphics]
               \/ numberOfExternalNONPSFiles dvi = 0
                  /\ find_exe h (fs w) "dvips" = false
                  /\ DVIExportToPS.output_name_ this = EmptyString
                  /\ emitted w w' = [Sorry Msg.dvips_missing]
               \/ ps_checks_pass h (fs w) dvi = true
                  /\ output_name = EmptyString
                  /\ DVIExportToPS.output_name_ this = out
                  /\ (out = EmptyString
                      /\ emitted w w'
                         = [SaveFileDialog (suggested_name (filename dvi) ".ps")
                              Msg.ps_filter]
                      \/ out <> EmptyString
                         /\ exists_ (fs w) out = false
                         /\ warningContinueCancel h out = Cancel
                         /\ emitted w w'
                            = [SaveFileDialog (suggested_name (filename dvi) ".ps")
                                 Msg.ps_filter;
                               OverwriteDialog out]))).
Proof.
  intros Hnew Hp. unfold DVIExportToPS.new in Hnew.
  destruct (dviFile (parent w)) as [dvi |] eqn:Hdvi.
  2:{ inversion Hnew; subst. rewrite emitted_same, after_no_events.
      repeat split. left. repeat split. discriminate. }
  destruct (exists_ (fs w) (filename dvi) && readable (fs w) (filename dvi)) eqn:Hsrc.
  2:{ apply andb_false_iff in Hsrc.
      assert (Hguard : negb (exists_ (fs w) (filename dvi))
                       || negb (readable (fs w) (filename dvi)) = true)
        by (destruct Hsrc as [-> | ->]; cbn; auto using orb_true_r).
      rewrite Hguard in Hnew. inversion Hnew; subst.
      rewrite emitted_same, after_no_events. repeat split.
      left. repeat split. intros d Hd. inversion Hd; subst.
      left. apply andb_false_iff. exact Hsrc. }
  pose proof Hsrc as Hsrc'. apply andb_true_iff in Hsrc' as [E1 E2].
  rewrite E1, E2 in Hnew. cbn [negb orb] in Hnew.
  destruct (page_offset dvi) as [| o os] eqn:E3.
  { inversion Hnew; subst. rewrite emitted_same, after_no_events. repeat split.
    left. repeat split. intros d Hd. inversion Hd; subst. now right. }
  assert (Htable : page_offset dvi <> []) by congruence.
  destruct (numberOfExternalNONPSFiles dvi =? 0) eqn:E4; cbn [negb] in Hnew.
  2:{ apply Z.eqb_neq in E4. inversion Hnew; subst. events.
      do 4 (split; [reflexivity |]).
      right. exists dvi. cbv zeta. auto 9. }
  apply Z.eqb_eq in E4.
  destruct (find_exe h (fs w) "dvips") eqn:E5; cbn [negb] in Hnew.
  2:{ inversion Hnew; subst. events.
      do 4 (split; [reflexivity |]).
      right. exists dvi. cbv zeta. auto 9. }
  assert (Hchk : ps_checks_pass h (fs w) dvi = true).
  { unfold ps_checks_pass. rewrite E1, E2, E3, E5. apply Z.eqb_eq in E4.
    now rewrite E4. }
  destruct (QStr.isEmpty output_name) eqn:Hgiven; cbn [negb] in Hnew.
  2:{ destruct (launch_spec _ _ _ _ _ _ _ Hnew) as (Hsome & _). congruence. }
  apply isEmpty_true in Hgiven. subst output_name.
  cbn [DVIExportToPS.with_output_name DVIExportToPS.output_name_
       DVIExportToPS.base DVIExportToPS.printer_ DVIExportToPS.tmpfile_name_ fs emit]
    in Hnew.
  set (suggested := suggested_name (filename dvi) ".ps") in *.
  set (out := getSaveFileName h suggested Msg.ps_filter) in *.
  destruct (QStr.isEmpty out) eqn:Hout.
  { apply isEmpty_true in Hout. inversion Hnew; subst. events.
    do 4 (split; [reflexivity |]).
    right. exists dvi. cbv zeta. fold suggested. fold out. auto 12. }
  apply isEmpty_false in Hout.
  destruct (exists_ (fs w) out) eqn:He; cbn [negb] in Hnew.
  { destruct (launch_spec _ _ _ _ _ _ _ Hnew) as (Hsome & _). congruence. }
  destruct (warningContinueCancel h out) eqn:Hw.
  { destruct (launch_spec _ _ _ _ _ _ _ Hnew) as (Hsome & _). congruence. }
  inversion Hnew; subst. events.
  do 3 (split; [reflexivity |]). split.
  - unfold after_events, emit. cbn. now rewrite <- app_assoc.
  - right. exists dvi. cbv zeta. fold suggested. fold out.
    do 3 (split; [auto |]). right. right. do 3 (split; [auto |]). right. auto.
Qed.

(** The PDF constructor with its checks passed, a name given and nothing
    declined is the call of [start]. *)
Lemma pdf_runs (h : Host) (w : World) (dvi : dvifile) :
  dviFile (parent w) = Some dvi ->
  pdf_checks_pass h (fs w) dvi = true ->
  let suggested := suggested_name (filename dvi) ".pdf" in
  let out := getSaveFileName h suggested Msg.pdf_filter in
  out <> EmptyString ->
  exists_ (fs w) out = true \/ warningContinueCancel h out = Continue ->
  DVIExportToPDF.new h w
  = ({| DVIExport.started_ :=
          process_start h "dvipdfm" ["-o"; out; filename dvi];
        DVIExport.process_ :=
          Some {| command := "dvipdfm"; args := ["-o"; out; filename dvi];
                  workingDirectory := dirPath h (filename dvi);
                  normalExit := false; exitStatus := 0 |};
        DVIExport.progress_ :=
          Some {| isVisible := false; totalSteps := total_pages dvi;
                  labelText := "Using dvipdfm to export the file to PDF";
                  finished_connected := true |};
        DVIExport.error_message_ := Msg.dvipdfm_failed |},
     after_events
       (choice_events (fs w) suggested Msg.pdf_filter out
        ++ InfoDialog (Msg.export_to_pdf (filename dvi)) true
        :: start_events h "dvipdfm" ["-o"; out; filename dvi]
             (dirPath h (filename dvi))) w).
Proof.
  intros Hdvi Hchk suggested out Hout Hgo.
  unfold DVIExportToPDF.new. rewrite Hdvi.
  unfold pdf_checks_pass in Hchk.
  apply andb_true_iff in Hchk as [Hchk E3]. apply andb_true_iff in Hchk as [E1 E2].
  rewrite E1, E2, E3. cbn [negb orb].
  fold suggested. fold out. apply isEmpty_false in Hout. rewrite Hout.
  cbn [fs emit]. unfold choice_events.
  destruct (exists_ (fs w) out) eqn:He; cbn [negb].
  - rewrite start_state. unfold after_events, emit. cbn.
    now rewrite orb_false_r, <- !app_assoc.
  - destruct Hgo as [Hgo | Hgo]; [discriminate |]. rewrite Hgo, start_state.
    unfold after_events, emit. cbn. now rewrite orb_false_r, <- !app_assoc.
Qed.

Lemma not_is_Some_None {A : Type} : ~ is_Some (@None A).
Proof. intros [x Hx]. discriminate. Qed.

(** X4: neither constructor asks the user anything, touches a file or
    creates a process unless the renderer holds a document whose file
    exists and is readable and the converter is found (for PostScript
    also: unless the page table is not empty and every external graphic
    is PostScript). *)
Theorem constructors_guarded (h : Host) :
  (forall (w w' : World) (this : DVIExport.t),
      DVIExportToPDF.new h w = (this, w') ->
      existsb is_dialog (emitted w w') = true
      \/ is_Some (DVIExport.process_ this) ->
      exists dvi, dviFile (parent w) = Some dvi
                  /\ pdf_checks_pass h (fs w) dvi = true)
  /\ (forall (output_name : string) (options : list string)
        (printer : option KPrinter) (w w' : World) (this : DVIExportToPS.t),
      DVIExportToPS.new h output_name options printer w = (this, w') ->
      existsb is_dialog (emitted w w') = true
      \/ existsb is_file_event (emitted w w') = true
      \/ is_Some (DVIExport.process_ (DVIExportToPS.base this)) ->
      exists dvi, dviFile (parent w) = Some dvi
                  /\ ps_checks_pass h (fs w) dvi = true).
Proof.
  split.
  - intros w w' this Hnew Hany.
    destruct (DVIExport.process_ this) as [p |] eqn:Hp.
    + destruct (pdf_launched _ _ _ _ Hnew (ex_intro _ p Hp)) as (dvi & Hd & Hc & _).
      eauto.
    + destruct (pdf_stopped _ _ _ _ Hnew Hp) as (_ & _ & Hcases).
      destruct Hany as [Hany | Hany]; [| now apply not_is_Some_None in Hany].
      destruct Hcases as [(Hem & _) | (dvi & Hd & Hsrc & Hcases)];
        [rewrite Hem in Hany; discriminate |].
      cbv zeta in Hcases.
      destruct Hcases as [(_ & Hem) | (Hexe & _)];
        [rewrite Hem in Hany; discriminate |].
      exists dvi. split; [exact Hd |]. unfold pdf_checks_pass. now rewrite Hsrc, Hexe.
  - intros output_name options printer w w' this Hnew Hany.
    destruct (DVIExport.process_ (DVIExportToPS.base this)) as [p |] eqn:Hp.
    + destruct (ps_launched _ _ _ _ _ _ _ Hnew (ex_intro _ p Hp))
        as (dvi & evs & Hd & Hc & _).
      eauto.
    + destruct (ps_stopped _ _ _ _ _ _ _ Hnew Hp) as (_ & _ & _ & _ & Hcases).
      destruct Hcases as [(Hem & _) | (dvi & Hd & Hsrc & Htable & Hcases)].
      { rewrite Hem in Hany.
        destruct Hany as [Hany | [Hany | Hany]]; try discriminate.
        now apply not_is_Some_None in Hany. }
      cbv zeta in Hcases.
      destruct Hcases as [(_ & _ & Hem) | [(_ & _ & _ & Hem) | (Hc & _)]];
        [| | eauto];
        rewrite Hem in Hany;
        (destruct Hany as [Hany | [Hany | Hany]]; try discriminate;
         now apply not_is_Some_None in Hany).
Qed.

(** The example export could only be started because its checks pass. *)
Lemma constructors_guarded_witness :
  exists dvi,
    dviFile (parent (Example.world Example.doc)) = Some dvi
    /\ ps_checks_pass Example.host (fs (Example.world Example.doc)) dvi = true.
Proof.
  apply (proj2 (constructors_guarded Example.host) "/home/u/out.ps" ["-pp"; "3"]
           None (Example.world Example.doc)
           (snd (DVIExportToPS.new Example.host "/home/u/out.ps" ["-pp"; "3"] None
                   (Example.world Example.doc)))
           (fst (DVIExportToPS.new Example.host "/home/u/out.ps" ["-pp"; "3"] None
                   (Example.world Example.doc)))
           (surjective_pairing _)).
  right. left. reflexivity.
Defined.

(** X5: when the converter cannot be found, the export ends with the
    message that names it and with nothing else: the object is as it was
    made, the world has only the message more; a PostScript export does
    not get as far as looking at the output name it was given. *)
Theorem export_without_converter (h : Host) (w : World) (dvi : dvifile) :
  dviFile (parent w) = Some dvi ->
  exists_ (fs w) (filename dvi) = true ->
  readable (fs w) (filename dvi) = true ->
  (find_exe h (fs w) "dvipdfm" = false ->
   DVIExportToPDF.new h w = (DVIExport.new, emit (Sorry Msg.dvipdfm_missing) w))
  /\ (page_offset dvi <> [] ->
      numberOfExternalNONPSFiles dvi = 0 ->
      find_exe h (fs w) "dvips" = false ->
      forall output_name options printer,
        DVIExportToPS.new h output_name options printer w
        = (ps_ready printer EmptyString, emit (Sorry Msg.dvips_missing) w)).
Proof.
  intros Hdvi E1 E2. split.
  - intros E3. unfold DVIExportToPDF.new. now rewrite Hdvi, E1, E2, E3.
  - intros Htable E4 E5 output_name options printer.
    unfold DVIExportToPS.new. rewrite Hdvi, E1, E2, E4, E5.
    now destruct (page_offset dvi).
Qed.

(** Without a search path the PDF export of the example ends with the message. *)
Lemma export_without_converter_witness :
  let h := with_environ ∅ Example.host in
  let w := Example.world Example.doc in
  DVIExportToPDF.new h w = (DVIExport.new, emit (Sorry Msg.dvipdfm_missing) w).
Proof.
  intros h w.
  apply (proj1 (export_without_converter h w Example.doc eq_refl eq_refl eq_refl)).
  reflexivity.
Defined.

(** X6: when the user gives no name in the file dialog, or answers the
    question about overwriting with Cancel, the export is given up: there
    is no process and no temporary file, the file system and the renderer
    are as before, and the only events are the dialogs themselves.  The
    PostScript object keeps the name that was typed. *)
Theorem export_declined (h : Host) (w : World) (dvi : dvifile) :
  dviFile (parent w) = Some dvi ->
  (pdf_checks_pass h (fs w) dvi = true ->
   let suggested := suggested_name (filename dvi) ".pdf" in
   let out := getSaveFileName h suggested Msg.pdf_filter in
   out = EmptyString
   \/ exists_ (fs w) out = false /\ warningContinueCancel h out = Cancel ->
   DVIExportToPDF.new h w
   = (DVIExport.new,
      after_events
        (SaveFileDialog suggested Msg.pdf_filter
         :: (if QStr.isEmpty out then [] else [OverwriteDialog out])) w))
  /\ (ps_checks_pass h (fs w) dvi = true ->
      let suggested := suggested_name (filename dvi) ".ps" in
      let out := getSaveFileName h suggested Msg.ps_filter in
      out = EmptyString
      \/ exists_ (fs w) out = false /\ warningContinueCancel h out = Cancel ->
      forall options printer,
        DVIExportToPS.new h EmptyString options printer w
        = (ps_ready printer out,
           after_events
             (SaveFileDialog suggested Msg.ps_filter
              :: (if QStr.isEmpty out then [] else [OverwriteDialog out])) w)).
Proof.
  intros Hdvi. split.
  - intros Hchk suggested out Hno.
    unfold DVIExportToPDF.new. rewrite Hdvi.
    unfold pdf_checks_pass in Hchk.
    apply andb_true_iff in Hchk as [Hchk E3]. apply andb_true_iff in Hchk as [E1 E2].
    rewrite E1, E2, E3. cbn [negb orb]. fold suggested. fold out.
    destruct (QStr.isEmpty out) eqn:Hout; [reflexivity |].
    destruct Hno as [Hno | [He Hw]];
      [apply isEmpty_true in Hno; congruence |].
    cbn [fs emit]. rewrite He, Hw. cbn [negb].
    unfold after_events, emit. cbn. now rewrite <- app_assoc.
  - intros Hchk suggested out Hno options printer.
    unfold DVIExportToPS.new. rewrite Hdvi.
    unfold ps_checks_pass in Hchk.
    apply andb_true_iff in Hchk as [Hchk E5]. apply andb_true_iff in Hchk as [Hchk E4].
    apply andb_true_iff in Hchk as [Hchk E3]. apply andb_true_iff in Hchk as [E1 E2].
    apply negb_true_iff in E3.
    rewrite E1, E2, E3, E4, E5. cbn [negb orb QStr.isEmpty].
    cbn [DVIExportToPS.with_output_name DVIExportToPS.output_name_
         DVIExportToPS.base DVIExportToPS.printer_ DVIExportToPS.tmpfile_name_ fs emit].
    fold suggested. fold out.
    destruct (QStr.isEmpty out) eqn:Hout; [reflexivity |].
    destruct Hno as [Hno | [He Hw]];
      [apply isEmpty_true in Hno; congruence |].
    rewrite He, Hw. cbn [negb].
    unfold after_events, emit, ps_ready. cbn. now rewrite <- app_assoc.
Qed.

(** The PDF export of the example, declined at the question. *)
Lemma export_declined_witness :
  let w := Example.world Example.doc in
  DVIExportToPDF.new Scenario.declining_host w
  = (DVIExport.new,
     after_events
       [SaveFileDialog "/home/u/report.pdf" Msg.pdf_filter;
        OverwriteDialog "/home/u/report.pdf"] w).
Proof.
  intros w.
  apply (proj1 (export_declined Scenario.declining_host w Example.doc eq_refl) eq_refl).
  right. split; reflexivity.
Defined.

Lemma existsb_dialog_choice (fs : FileSystem) (suggested filter out : string) :
  existsb is_file_event (choice_events fs suggested filter out) = false.
Proof. unfold choice_events. now destruct (exists_ fs out). Qed.

Lemma start_events_quiet (h : Host) (command : string) (args : list string)
    (wd : string) :
  existsb is_dialog (start_events h command args wd) = false
  /\ existsb is_file_event (start_events h command args wd) = false.
Proof. unfold start_events. now destruct (process_start h command args). Qed.

(** X7: a PostScript export that is given its output name never asks the
    user anything, whether or not that file exists; and when its checks
    pass it goes on to start dvips with that name after [-o]. *)
Theorem ps_with_output_name_is_silent (h : Host) (output_name : string)
    (options : list string) (printer : option KPrinter) (w w' : World)
    (this : DVIExportToPS.t) :
  output_name <> EmptyString ->
  DVIExportToPS.new h output_name options printer w = (this, w') ->
  existsb is_dialog (emitted w w') = false
  /\ (forall dvi, dviFile (parent w) = Some dvi ->
                  ps_checks_pass h (fs w) dvi = true ->
                  DVIExportToPS.output_name_ this = output_name
                  /\ exists p input_name,
                       DVIExport.process_ (DVIExportToPS.base this) = Some p
                       /\ args p = hyperlink_flag printer ++ options
                                   ++ [input_name; "-o"; output_name]).
Proof.
  intros Hname Hnew. split.
  - destruct (DVIExport.process_ (DVIExportToPS.base this)) as [p |] eqn:Hp.
    + destruct (ps_new_inv _ _ _ _ _ _ _ Hnew (ex_intro _ p Hp))
        as (dvi & out & evs & _ & _ & _ & Hcases & Hl).
      destruct Hcases as [(_ & -> & ->) | (Hempty & _)]; [| congruence].
      apply launch_spec in Hl. cbv zeta in Hl.
      destruct Hl as (_ & _ & _ & _ & _ & _ & _ & _ & Htr).
      cbn [after_events trace] in Htr. rewrite app_nil_r in Htr.
      rewrite (emitted_after _ _ _ Htr), existsb_app.
      cbn [existsb is_dialog orb].
      rewrite (proj1 (start_events_quiet _ _ _ _)).
      now destruct (DVIExportToPS.needs_rewrite dvi options).
    + destruct (ps_stopped _ _ _ _ _ _ _ Hnew Hp) as (_ & _ & _ & _ & Hcases).
      destruct Hcases as [(-> & _) | (dvi & _ & _ & _ & Hcases)]; [reflexivity |].
      cbv zeta in Hcases.
      destruct Hcases as [(_ & _ & ->) | [(_ & _ & _ & ->) | (_ & Hempty & _)]];
        [reflexivity | reflexivity | congruence].
  - intros dvi Hdvi Hchk.
    pose proof (ps_launches h output_name options printer w dvi Hdvi Hchk Hname) as Hp.
    rewrite Hnew in Hp. cbn [fst] in Hp.
    destruct (ps_new_inv _ _ _ _ _ _ _ Hnew Hp)
      as (dvi' & out & evs & _ & _ & _ & Hcases & Hl).
    destruct Hcases as [(_ & -> & ->) | (Hempty & _)]; [| congruence].
    apply launch_spec in Hl. cbv zeta in Hl.
    destruct Hl as (Hproc & _ & _ & Hout & _).
    cbn [ps_ready DVIExportToPS.output_name_ DVIExportToPS.printer_] in *.
    split; [exact Hout |]. eexists. eexists. split; [exact Hproc | reflexivity].
Qed.

(** The export for printing of the example, onto a file that exists. *)
Lemma ps_with_output_name_is_silent_witness :
  let w := Example.world_on Scenario.fs_with_output Example.doc in
  let r := DVIExportToPS.new Example.host "/home/u/out.ps" []
             (Some Scenario.printer) w in
  existsb is_dialog (emitted w (snd r)) = false.
Proof.
  intros w r.
  apply (ps_with_output_name_is_silent Example.host "/home/u/out.ps" []
           (Some Scenario.printer) w (snd r) (fst r));
    [discriminate | apply surjective_pairing].
Defined.

(** A launched PostScript export, with the renderer and the object. *)
Lemma ps_launched_state (h : Host) (output_name : string) (options : list string)
    (printer : option KPrinter) (w w' : World) (this : DVIExportToPS.t) :
  DVIExportToPS.new h output_name options printer w = (this, w') ->
  is_Some (DVIExport.process_ (DVIExportToPS.base this)) ->
  exists dvi p d,
    dviFile (parent w) = Some dvi
    /\ DVIExport.process_ (DVIExportToPS.base this) = Some p
    /\ command p = "dvips"
    /\ DVIExport.started_ (DVIExportToPS.base this)
       = process_start h (command p) (args p)
    /\ DVIExport.progress_ (DVIExportToPS.base this) = Some d
    /\ isVisible d = false /\ totalSteps d = total_pages dvi
    /\ finished_connected d = true
    /\ DVIExport.error_message_ (DVIExportToPS.base this) = Msg.dvips_failed
    /\ dviFile (parent w') = dviFile (parent w)
    /\ current_page (parent w') = current_page (parent w)
    /\ errorMsg (parent w')
       = (if DVIExportToPS.needs_rewrite dvi options then EmptyString
          else errorMsg (parent w)).
Proof.
  intros Hnew Hp.
  destruct (ps_new_inv _ _ _ _ _ _ _ Hnew Hp)
    as (dvi & out & evs & Hdvi & _ & _ & _ & Hl).
  destruct (launch_state _ _ _ _ _ _ _ Hl)
    as ((p & Hproc & Hst) & (d & Hd & Hv & Ht & Hc) & Herr).
  apply launch_spec in Hl. cbv zeta in Hl.
  destruct Hl as (Hproc' & Hmsg & _ & _ & _ & _ & Hfile & Hpage & _).
  exists dvi, p, d. rewrite Hproc in Hproc'. inversion Hproc'; subst p.
  cbn [command args] in *. rewrite orb_false_r in Hst.
  repeat split; auto.
Qed.

(** A launched PDF export, as [pdf_runs] gives it. *)
Lemma pdf_launched_state (h : Host) (w w' : World) (this : DVIExport.t) :
  DVIExportToPDF.new h w = (this, w') ->
  is_Some (DVIExport.process_ this) ->
  exists dvi,
    let suggested := suggested_name (filename dvi) ".pdf" in
    let out := getSaveFileName h suggested Msg.pdf_filter in
    dviFile (parent w) = Some dvi
    /\ pdf_checks_pass h (fs w) dvi = true
    /\ out <> EmptyString
    /\ (exists_ (fs w) out = true \/ warningContinueCancel h out = Continue)
    /\ this
       = {| DVIExport.started_ :=
              process_start h "dvipdfm" ["-o"; out; filename dvi];
            DVIExport.process_ :=
              Some {| command := "dvipdfm"; args := ["-o"; out; filename dvi];
                      workingDirectory := dirPath h (filename dvi);
                      normalExit := false; exitStatus := 0 |};
            DVIExport.progress_ :=
              Some {| isVisible := false; totalSteps := total_pages dvi;
                      labelText := "Using dvipdfm to export the file to PDF";
                      finished_connected := true |};
            DVIExport.error_message_ := Msg.dvipdfm_failed |}
    /\ w' = after_events
              (choice_events (fs w) suggested Msg.pdf_filter out
               ++ InfoDialog (Msg.export_to_pdf (filename dvi)) true
               :: start_events h "dvipdfm" ["-o"; out; filename dvi]
                    (dirPath h (filename dvi))) w.
Proof.
  intros Hnew Hp.
  destruct (pdf_launched _ _ _ _ Hnew Hp) as (dvi & Hdvi & Hchk & Hout & _).
  cbv zeta in Hout. exists dvi. cbv zeta.
  assert (Hgo : exists_ (fs w)
                  (getSaveFileName h (suggested_name (filename dvi) ".pdf")
                     Msg.pdf_filter) = true
                \/ warningContinueCancel h
                     (getSaveFileName h (suggested_name (filename dvi) ".pdf")
                        Msg.pdf_filter) = Continue).
  { destruct (pdf_interactive _ _ _ _ _ Hnew Hdvi Hchk Hout)
      as [(_ & _ & Hnone & _) | (Hgo & _)]; [| exact Hgo].
    rewrite Hnone in Hp. now apply not_is_Some_None in Hp. }
  rewrite (pdf_runs _ _ _ Hdvi Hchk Hout Hgo) in Hnew.
  inversion Hnew; subst; clear Hnew. auto 8.
Qed.

(** X8: the PDF constructor changes nothing in the world but the trace.
    The PostScript constructor leaves the renderer's document and
    current page as they were and changes the file system at most under
    the temporary name, and only when it rewrites; every other path,
    the document's own among them, holds what it held. *)
Theorem constructors_frame (h : Host) :
  (forall (w w' : World) (this : DVIExport.t),
      DVIExportToPDF.new h w = (this, w') ->
      w' = after_events (emitted w w') w
      /\ existsb is_file_event (emitted w w') = false)
  /\ (forall (output_name : string) (options : list string)
        (printer : option KPrinter) (w w' : World) (this : DVIExportToPS.t),
      DVIExportToPS.new h output_name options printer w = (this, w') ->
      (forall path, path <> temporaryFileName h (fs w) ->
                    fs w' !! path = fs w !! path)
      /\ (existsb is_file_event (emitted w w') = false -> fs w' = fs w)
      /\ dviFile (parent w') = dviFile (parent w)
      /\ current_page (parent w') = current_page (parent w)).
Proof.
  split.
  - intros w w' this Hnew.
    destruct (DVIExport.process_ this) as [p |] eqn:Hp.
    + destruct (pdf_launched_state _ _ _ _ Hnew (ex_intro _ p Hp))
        as (dvi & _ & _ & _ & _ & _ & Hw).
      cbv zeta in Hw. rewrite Hw at 2 3. rewrite emitted_after_events.
      split; [exact Hw |].
      rewrite existsb_app, existsb_dialog_choice. cbn [existsb is_file_event orb].
      apply start_events_quiet.
    + destruct (pdf_stopped _ _ _ _ Hnew Hp) as (_ & Hw & Hcases).
      split; [exact Hw |].
      destruct Hcases as [(-> & _) | (dvi & _ & _ & Hcases)]; [reflexivity |].
      cbv zeta in Hcases.
      destruct Hcases as [(_ & ->) | (_ & [(_ & ->) | (_ & _ & _ & ->)])];
        reflexivity.
  - intros output_name options printer w w' this Hnew.
    destruct (DVIExport.process_ (DVIExportToPS.base this)) as [p |] eqn:Hp.
    + destruct (ps_launched _ _ _ _ _ _ _ Hnew (ex_intro _ p Hp))
        as (dvi & evs & Hdvi & _ & _ & _ & Hevs & _ & _ & Hfs & Hem).
      destruct (ps_launched_state _ _ _ _ _ _ _ Hnew (ex_intro _ p Hp))
        as (dvi' & _ & _ & _ & _ & _ & _ & _ & _ & _ & _ & _ & Hfile & Hpage & _).
      cbv zeta in *. rewrite Hfs, Hem.
      destruct (DVIExportToPS.needs_rewrite dvi options).
      * split; [| split; [| split; assumption]].
        -- intros path Hpath. now apply lookup_delete_ne.
        -- rewrite !existsb_app. cbn [existsb is_file_event orb].
           rewrite orb_true_r. discriminate.
      * split; [| split; [| split; assumption]]; auto.
    + destruct (ps_stopped _ _ _ _ _ _ _ Hnew Hp) as (_ & _ & _ & Hw & _).
      pose proof (f_equal fs Hw) as Hfs. pose proof (f_equal parent Hw) as Hpar.
      cbn [after_events fs parent] in Hfs, Hpar. rewrite Hfs, Hpar. repeat split.
Qed.

(** The PostScript export with options on the example document writes
    under the temporary name only. *)
Lemma constructors_frame_witness :
  let w := Example.world Example.doc in
  let r := DVIExportToPS.new Example.host "/home/u/out.ps" ["-pp"; "3"] None w in
  fs (snd r) !! "/home/u/report.v2.dvi" = fs w !! "/home/u/report.v2.dvi"
  /\ dviFile (parent (snd r)) = Some Example.doc.
Proof.
  intros w r.
  destruct (proj2 (constructors_frame Example.host) "/home/u/out.ps" ["-pp"; "3"]
              None w (snd r) (fst r) (surjective_pairing r))
    as (Hframe & _ & Hdoc & _).
  split; [apply Hframe; discriminate | exact Hdoc].
Defined.

(** X9: a converter is started exactly when there is a document that
    passes the checks and an output name is settled: for PostScript the
    name given to the constructor or, without one, a name from the file
    dialog for a file that exists or whose overwriting the user lets
    continue; for PDF always the latter. *)
Theorem converter_started_iff (h : Host) (w : World) :
  (is_Some (DVIExport.process_ (fst (DVIExportToPDF.new h w)))
   <-> exists dvi,
         let out := getSaveFileName h (suggested_name (filename dvi) ".pdf")
                      Msg.pdf_filter in
         dviFile (parent w) = Some dvi
         /\ pdf_checks_pass h (fs w) dvi = true
         /\ out <> EmptyString
         /\ (exists_ (fs w) out = true \/ warningContinueCancel h out = Continue))
  /\ (forall (output_name : string) (options : list string)
        (printer : option KPrinter),
      is_Some (DVIExport.process_
                 (DVIExportToPS.base
                    (fst (DVIExportToPS.new h output_name options printer w))))
      <-> exists dvi,
            let out := getSaveFileName h (suggested_name (filename dvi) ".ps")
                         Msg.ps_filter in
            dviFile (parent w) = Some dvi
            /\ ps_checks_pass h (fs w) dvi = true
            /\ (output_name <> EmptyString
                \/ output_name = EmptyString
                   /\ out <> EmptyString
                   /\ (exists_ (fs w) out = true
                       \/ warningContinueCancel h out = Continue))).
Proof.
  split.
  - split.
    + intros Hp.
      destruct (pdf_launched_state _ _ _ _ (surjective_pairing _) Hp)
        as (dvi & Hd & Hc & Ho & Hgo & _).
      exists dvi. cbv zeta. auto.
    + intros (dvi & Hd & Hc & Ho & Hgo). cbv zeta in *.
      rewrite (pdf_runs _ _ _ Hd Hc Ho Hgo). cbn [fst DVIExport.process_]. eauto.
  - intros output_name options printer. split.
    + intros Hp.
      destruct (ps_new_inv _ _ _ _ _ _ _ (surjective_pairing _) Hp)
        as (dvi & out & evs & Hd & Hc & Ho & Hcases & _).
      exists dvi. cbv zeta. split; [exact Hd | split; [exact Hc |]].
      destruct Hcases as [(Hgiven & _) | (Hempty & -> & _ & Hask)]; [now left |].
      right. split; [exact Hempty | split; [exact Ho |]].
      destruct (exists_ (fs w) _); auto.
    + intros (dvi & Hd & Hc & [Hgiven | (-> & Ho & Hgo)]); cbv zeta in *.
      * now apply (ps_launches _ _ _ _ _ dvi).
      * destruct (ps_interactive h options printer w _ _ dvi
                    (surjective_pairing _) Hd Hc Ho)
          as [(He & Hw & _) | (_ & Hl)].
        -- destruct Hgo; congruence.
        -- apply launch_spec in Hl. destruct Hl as (Hproc & _). rewrite Hproc. eauto.
Qed.

(** X10: what the object holds after either constructor.  Without a
    process object it is as it was made: not started and without a
    progress dialog.  With one, [started_] tells whether the child could
    be spawned, a failure to spawn is logged, the process object is kept
    all the same, and the progress dialog exists, hidden, connected and
    with one step for each page of the document. *)
Theorem constructed_object (h : Host) :
  (forall (w w' : World) (this : DVIExport.t),
      DVIExportToPDF.new h w = (this, w') ->
      (DVIExport.process_ this = None -> this = DVIExport.new)
      /\ (forall p, DVIExport.process_ this = Some p ->
            DVIExport.started_ this = process_start h (command p) (args p)
            /\ (DVIExport.started_ this = false ->
                In (KdError "dvipdfm failed to start") (emitted w w'))
            /\ exists dvi d,
                 dviFile (parent w) = Some dvi
                 /\ DVIExport.progress_ this = Some d
                 /\ isVisible d = false /\ finished_connected d = true
                 /\ totalSteps d = total_pages dvi))
  /\ (forall (output_name : string) (options : list string)
        (printer : option KPrinter) (w w' : World) (this : DVIExportToPS.t),
      DVIExportToPS.new h output_name options printer w = (this, w') ->
      DVIExportToPS.printer_ this = printer
      /\ (DVIExport.process_ (DVIExportToPS.base this) = None ->
          DVIExportToPS.base this = DVIExport.new
          /\ DVIExportToPS.tmpfile_name_ this = EmptyString)
      /\ (forall p, DVIExport.process_ (DVIExportToPS.base this) = Some p ->
            DVIExport.started_ (DVIExportToPS.base this)
            = process_start h (command p) (args p)
            /\ (DVIExport.started_ (DVIExportToPS.base this) = false ->
                In (KdError "dvips failed to start") (emitted w w'))
            /\ exists dvi d,
                 dviFile (parent w) = Some dvi
                 /\ DVIExport.progress_ (DVIExportToPS.base this) = Some d
                 /\ isVisible d = false /\ finished_connected d = true
                 /\ totalSteps d = total_pages dvi)).
Proof.
  split.
  - intros w w' this Hnew. split.
    + intros Hp. now destruct (pdf_stopped _ _ _ _ Hnew Hp).
    + intros p Hp.
      destruct (pdf_launched_state _ _ _ _ Hnew (ex_intro _ p Hp))
        as (dvi & Hd & _ & _ & _ & Hthis & Hw).
      cbv zeta in *. subst this. cbn [DVIExport.process_] in Hp.
      inversion Hp; subst p; clear Hp.
      cbn [DVIExport.started_ DVIExport.progress_ command args].
      split; [reflexivity | split].
      * intros Hfail. rewrite Hw, emitted_after_events.
        apply in_or_app. right. right. unfold start_events. rewrite Hfail.
        right. now left.
      * exists dvi. eexists. repeat split; auto.
  - intros output_name options printer w w' this Hnew.
    destruct (DVIExport.process_ (DVIExportToPS.base this)) as [p |] eqn:Hp.
    + destruct (ps_launched _ _ _ _ _ _ _ Hnew (ex_intro _ p Hp))
        as (dvi & evs & Hdvi & _ & _ & Hpr & _ & Hproc & _ & _ & Hem).
      destruct (ps_launched_state _ _ _ _ _ _ _ Hnew (ex_intro _ p Hp))
        as (dvi' & p' & d & Hdvi' & Hp' & Hcmd & Hst & Hd & Hv & Ht & Hc & _).
      cbv zeta in *. rewrite Hdvi in Hdvi'. inversion Hdvi'; subst dvi'.
      rewrite Hp in Hp'. inversion Hp'; subst p'.
      split; [exact Hpr |]. split; [discriminate |].
      intros q Hq. inversion Hq; subst q. split; [exact Hst | split].
      * intros Hfail. rewrite Hem. rewrite Hp in Hproc.
        inversion Hproc; subst p. cbn [command args] in *.
        apply in_or_app. right. apply in_or_app. right. right.
        unfold start_events. rewrite <- Hst, Hfail. right. now left.
      * exists dvi, d. auto.
    + destruct (ps_stopped _ _ _ _ _ _ _ Hnew Hp) as (Hb & Hpr & Htmp & _).
      split; [exact Hpr |]. split; [auto | discriminate].
Qed.

(** On the system that cannot spawn, the PDF export of the example keeps
    its process object, is not started, and the failure is logged. *)
Lemma constructed_object_witness :
  let w := Example.world Example.doc in
  let r := DVIExportToPDF.new Scenario.failing_host w in
  DVIExport.started_ (fst r) = false
  /\ In (KdError "dvipdfm failed to start") (emitted w (snd r)).
Proof.
  intros w r.
  destruct (proj2 (proj1 (constructed_object Scenario.failing_host) w (snd r) (fst r)
                     (surjective_pairing r))
              {| command := "dvipdfm";
                 args := ["-o"; "/home/u/report.pdf"; "/home/u/report.v2.dvi"];
                 workingDirectory := "/home/u";
                 normalExit := false; exitStatus := 0 |} eq_refl)
    as (Hst & Hlog & _).
  split; [exact Hst | exact (Hlog Hst)].
Defined.

(** The PDF export of the example is started. *)
Lemma converter_started_iff_witness :
  is_Some (DVIExport.process_
             (fst (DVIExportToPDF.new Example.host (Example.world Example.doc)))).
Proof.
  apply (proj2 (proj1 (converter_started_iff Example.host (Example.world Example.doc)))).
  exists Example.doc. cbv zeta.
  split; [reflexivity | split; [reflexivity | split; [discriminate |]]].
  right. reflexivity.
Defined.

(** ** Output, abort and finish *)

(** X11: output of the child changes neither the file system nor the
    renderer nor the process object.  It is dropped when there is no
    process object, so also once the export was aborted, and, without
    [DVIEXPORT_USE_QPROCESS], when the buffer is empty.  Otherwise it is
    passed to the info dialog, once and unchanged, and a progress dialog
    that exists is shown, keeping its steps and its connection. *)
Theorem output_receiver_behaviour (h : Host) (buffer : string) (this : DVIExport.t)
    (w : World) :
  let r := DVIExport.output_receiver h buffer this w in
  snd r = after_events (emitted w (snd r)) w
  /\ DVIExport.process_ (fst r) = DVIExport.process_ this
  /\ DVIExport.started_ (fst r) = DVIExport.started_ this
  /\ (DVIExport.process_ this = None -> r = (this, w))
  /\ (use_qprocess h = false -> buffer = EmptyString -> r = (this, w))
  /\ (is_Some (DVIExport.process_ this) ->
      buffer <> EmptyString \/ use_qprocess h = true ->
      emitted w (snd r) = [InfoDialog buffer false]
      /\ (DVIExport.progress_ this = None -> DVIExport.progress_ (fst r) = None)
      /\ forall d, DVIExport.progress_ this = Some d ->
           DVIExport.progress_ (fst r)
           = Some {| isVisible := true; totalSteps := totalSteps d;
                     labelText := labelText d;
                     finished_connected := finished_connected d |})
  /\ (let a := DVIExport.abort_process_impl this w in
      DVIExport.output_receiver h buffer (fst a) (snd a) = a).
Proof.
  intros r. subst r. unfold DVIExport.output_receiver, DVIExport.abort_process_impl.
  destruct (use_qprocess h) eqn:Hq, (QStr.isEmpty buffer) eqn:Hb,
    (DVIExport.process_ this) as [p |] eqn:Hp,
    (DVIExport.progress_ this) as [d |] eqn:Hd;
    cbn [negb andb fst snd DVIExport.process_ DVIExport.progress_
         DVIExport.started_ DVIExport.with_process DVIExport.with_progress];
    rewrite ?emitted_same, ?after_no_events;
    repeat match goal with
           | |- _ /\ _ => split
           | |- _ -> _ => intro
           | |- forall _, _ => intro
           end;
    try reflexivity; try congruence; try discriminate;
    try (events; reflexivity);
    try match goal with
        | H : is_Some None |- _ => now apply not_is_Some_None in H
        end;
    try match goal with
        | Heq : buffer = EmptyString |- _ => now rewrite Heq in Hb
        end;
    try match goal with
        | Hor : _ <> EmptyString \/ _ |- _ =>
            apply isEmpty_true in Hb; destruct Hor; congruence
        end.
Qed.

(** A line of output of the started PDF export of the example. *)
Lemma output_receiver_behaviour_witness :
  let w := Example.world Example.doc in
  let export := DVIExportToPDF.new Example.host w in
  emitted (snd export)
    (snd (DVIExport.output_receiver Example.host "This is dvipdfm" (fst export)
            (snd export)))
  = [InfoDialog "This is dvipdfm" false].
Proof.
  intros w export.
  destruct (output_receiver_behaviour Example.host "This is dvipdfm" (fst export)
              (snd export)) as (_ & _ & _ & _ & _ & Hout & _).
  apply Hout; [eexists; reflexivity | left; discriminate].
Defined.

(** X12: aborting twice is aborting once, for the base class and for the
    PostScript export: the second call finds no dialog, no process and no
    temporary name, and changes nothing; destroying the object after an
    abort releases nothing more. *)
Theorem abort_is_idempotent :
  (forall (this : DVIExport.t) (w : World),
      let a := DVIExport.abort_process_impl this w in
      DVIExport.abort_process_impl (fst a) (snd a) = a
      /\ DVIExport.destroy (fst a) (snd a) = snd a)
  /\ (forall (this : DVIExportToPS.t) (w : World),
      let a := DVIExportToPS.abort_process_impl this w in
      DVIExportToPS.abort_process_impl (fst a) (snd a) = a
      /\ DVIExportToPS.destroy (fst a) (snd a) = snd a).
Proof.
  split.
  - intros this w a. subst a. split; reflexivity.
  - intros this w a. subst a.
    unfold DVIExportToPS.abort_process_impl, DVIExportToPS.destroy.
    destruct (QStr.isEmpty (DVIExportToPS.tmpfile_name_ this)) eqn:He;
      cbn [negb fst snd DVIExportToPS.tmpfile_name_ DVIExportToPS.with_tmpfile_name
           DVIExportToPS.with_base DVIExportToPS.base DVIExport.abort_process_impl
           QStr.isEmpty];
      rewrite ?He; split; reflexivity.
Qed.

(** X13: aborting a PostScript export, whatever way its constructor
    ended, gives the file system back as it was before the constructor
    ran, provided the temporary name is not empty and was not taken: the
    copy is removed again.  The object is left without process, dialog,
    printer and temporary name, and a process that existed is killed. *)
Theorem ps_abort_restores_files (h : Host) (output_name : string)
    (options : list string) (printer : option KPrinter) (w w' : World)
    (this : DVIExportToPS.t) :
  DVIExportToPS.new h output_name options printer w = (this, w') ->
  temporaryFileName h (fs w) <> EmptyString ->
  fs w !! temporaryFileName h (fs w) = None ->
  let a := DVIExportToPS.abort_process_impl this w' in
  fs (snd a) = fs w
  /\ DVIExportToPS.tmpfile_name_ (fst a) = EmptyString
  /\ DVIExportToPS.printer_ (fst a) = None
  /\ DVIExport.process_ (DVIExportToPS.base (fst a)) = None
  /\ DVIExport.progress_ (DVIExportToPS.base (fst a)) = None
  /\ (is_Some (DVIExport.process_ (DVIExportToPS.base this)) ->
      In (Kill "dvips") (emitted w' (snd a))).
Proof.
  intros Hnew Hname Hfresh a. subst a.
  destruct (DVIExport.process_ (DVIExportToPS.base this)) as [p |] eqn:Hp.
  - destruct (ps_launched _ _ _ _ _ _ _ Hnew (ex_intro _ p Hp))
      as (dvi & evs & _ & _ & _ & _ & _ & Hproc & Htmp & Hfs & _).
    cbv zeta in *. rewrite Hp in Hproc. inversion Hproc; subst p; clear Hproc.
    unfold DVIExportToPS.abort_process_impl, DVIExport.abort_process_impl.
    rewrite Htmp.
    destruct (DVIExportToPS.needs_rewrite dvi options).
    + apply isEmpty_false in Hname. rewrite Hname.
      cbn [negb fst snd DVIExportToPS.base DVIExportToPS.with_base
           DVIExportToPS.with_tmpfile_name DVIExportToPS.tmpfile_name_
           DVIExportToPS.printer_ DVIExport.with_process DVIExport.with_progress
           DVIExport.process_ DVIExport.progress_].
      rewrite Hp. cbn [fs emit set_fs command]. rewrite Hfs.
      repeat split; [rewrite delete_delete_eq; now apply delete_id |].
      intros _. events. cbn [In]. auto.
    + cbn [negb QStr.isEmpty fst snd DVIExportToPS.base DVIExportToPS.with_base
           DVIExportToPS.with_tmpfile_name DVIExportToPS.tmpfile_name_
           DVIExportToPS.printer_ DVIExport.with_process DVIExport.with_progress
           DVIExport.process_ DVIExport.progress_].
      rewrite Hp, Htmp. cbn [fs emit command].
      repeat split; [exact Hfs |].
      intros _. events. cbn [In]. auto.
  - destruct (ps_stopped _ _ _ _ _ _ _ Hnew Hp) as (_ & _ & Htmp & Hw & _).
    pose proof (f_equal fs Hw) as Hfs. cbn [after_events fs] in Hfs.
    unfold DVIExportToPS.abort_process_impl, DVIExport.abort_process_impl.
    rewrite Htmp.
    cbn [negb QStr.isEmpty fst snd DVIExportToPS.base DVIExportToPS.with_base
         DVIExportToPS.with_tmpfile_name DVIExportToPS.tmpfile_name_
         DVIExportToPS.printer_ DVIExport.with_process DVIExport.with_progress
         DVIExport.process_ DVIExport.progress_].
    rewrite Hp, Htmp. repeat split; [exact Hfs |].
    intros Hsome. now apply not_is_Some_None in Hsome.
Qed.

(** The export with options of the example, aborted. *)
Lemma ps_abort_restores_files_witness :
  let w := Example.world Example.doc in
  let r := DVIExportToPS.new Example.host "/home/u/out.ps" ["-pp"; "3"] None w in
  fs (snd (DVIExportToPS.abort_process_impl (fst r) (snd r))) = fs w.
Proof.
  intros w r.
  apply (ps_abort_restores_files Example.host "/home/u/out.ps" ["-pp"; "3"] None
           w (snd r) (fst r) (surjective_pairing r));
    [discriminate | reflexivity].
Defined.

(** The events of the finish handler of the PostScript export. *)
Lemma ps_finished_events (h : Host) (exit_code : Z) (this : DVIExportToPS.t)
    (w : World) :
  let r := DVIExportToPS.finished_impl h exit_code this w in
  emitted w (snd r)
  = match DVIExportToPS.printer_ this with
    | Some printer =>
        if negb (QStr.isEmpty (DVIExportToPS.output_name_ this))
           && exists_ (fs w) (DVIExportToPS.output_name_ this)
           && readable (fs w) (DVIExportToPS.output_name_ this)
        then [PrintFiles printer [DVIExportToPS.output_name_ this]]
        else []
    | None => []
    end
    ++ (if DVIExport.reports_failure h exit_code (DVIExportToPS.base this)
        then [Error (DVIExport.error_message_ (DVIExportToPS.base this))]
        else [])
    ++ [ExportFinished].
Proof.
  intros r. subst r.
  unfold DVIExportToPS.finished_impl, DVIExport.finished_impl.
  destruct (DVIExportToPS.printer_ this) as [printer |];
    [destruct (negb (QStr.isEmpty (DVIExportToPS.output_name_ this))
               && exists_ (fs w) (DVIExportToPS.output_name_ this)
               && readable (fs w) (DVIExportToPS.output_name_ this)) |];
    destruct (DVIExport.progress_ (DVIExportToPS.base this));
    rewrite ?reports_failure_progress;
    destruct (DVIExport.reports_failure h exit_code (DVIExportToPS.base this));
    cbn [fst snd]; events; reflexivity.
Qed.

(** X14: when the PostScript export finishes, the output file is handed
    to the printer exactly when a printer is attached, the output name is
    not empty and the file exists and is readable.  Neither the exit code
    nor the state of the process plays a part: a file that is there is
    printed also after a failed conversion, and before the failure is
    reported.  Nothing is printed twice, and nothing but the output file. *)
Theorem ps_finished_prints (h : Host) (exit_code : Z) (this : DVIExportToPS.t)
    (w : World) :
  let r := DVIExportToPS.finished_impl h exit_code this w in
  let out := DVIExportToPS.output_name_ this in
  (forall printer,
      DVIExportToPS.printer_ this = Some printer ->
      out <> EmptyString ->
      exists_ (fs w) out = true -> readable (fs w) out = true ->
      exists rest,
        emitted w (snd r) = PrintFiles printer [out] :: rest
        /\ existsb is_PrintFiles rest = false)
  /\ (DVIExportToPS.printer_ this = None \/ out = EmptyString
      \/ exists_ (fs w) out = false \/ readable (fs w) out = false ->
      existsb is_PrintFiles (emitted w (snd r)) = false)
  /\ (forall printer files,
        In (PrintFiles printer files) (emitted w (snd r)) ->
        DVIExportToPS.printer_ this = Some printer /\ files = [out]).
Proof.
  intros r out. subst r out. rewrite ps_finished_events.
  assert (Htail : forall l,
             l = (if DVIExport.reports_failure h exit_code (DVIExportToPS.base this)
                  then [Error (DVIExport.error_message_ (DVIExportToPS.base this))]
                  else []) ++ [ExportFinished] ->
             existsb is_PrintFiles l = false
             /\ forall printer files, ~ In (PrintFiles printer files) l).
  { intros l ->.
    destruct (DVIExport.reports_failure h exit_code (DVIExportToPS.base this));
      cbn; intuition discriminate. }
  destruct (Htail _ eq_refl) as [Hquiet Hnone].
  split; [| split].
  - intros printer Hpr Hout He Hr. apply isEmpty_false in Hout.
    rewrite Hpr, Hout, He, Hr. cbn [negb andb app]. eauto.
  - intros Hno.
    destruct (DVIExportToPS.printer_ this) as [printer |]; [| exact Hquiet].
    replace (negb (QStr.isEmpty (DVIExportToPS.output_name_ this))
             && exists_ (fs w) (DVIExportToPS.output_name_ this)
             && readable (fs w) (DVIExportToPS.output_name_ this)) with false;
      [exact Hquiet |].
    symmetry.
    destruct Hno as [Hno | [Hno | [Hno | Hno]]];
      [discriminate | rewrite Hno; reflexivity
       | rewrite Hno; apply andb_false_iff; left; apply andb_false_r
       | rewrite Hno; apply andb_false_r].
  - intros printer files Hin.
    destruct (DVIExportToPS.printer_ this) as [pr |];
      [| now apply Hnone in Hin].
    destruct (negb (QStr.isEmpty (DVIExportToPS.output_name_ this))
              && exists_ (fs w) (DVIExportToPS.output_name_ this)
              && readable (fs w) (DVIExportToPS.output_name_ this));
      [| now apply Hnone in Hin].
    destruct Hin as [Hin | Hin]; [now inversion Hin | now apply Hnone in Hin].
Qed.

(** The export for printing of the example, finished after dvips has
    written its output. *)
Lemma ps_finished_prints_witness :
  let w := Example.world_on Scenario.fs_with_output Example.doc in
  let export := DVIExportToPS.new Example.host "/home/u/out.ps" []
                  (Some Scenario.printer) w in
  exists rest,
    emitted (snd export)
      (snd (DVIExportToPS.finished_impl Example.host 1 (fst export) (snd export)))
    = PrintFiles Scenario.printer ["/home/u/out.ps"] :: rest
    /\ existsb is_PrintFiles rest = false.
Proof.
  intros w export.
  apply (proj1 (ps_finished_prints Example.host 1 (fst export) (snd export))
           Scenario.printer); try reflexivity.
  vm_compute. discriminate.
Defined.

Lemma process_exited_alive (h : Host) (normal : bool) (status exit_code : Z)
    (this : DVIExport.t) (p : Process) :
  DVIExport.process_ this = Some p ->
  DVIExport.reports_failure h exit_code (DVIExport.process_exited normal status this)
  = (if use_qprocess h then negb (exit_code =? 0) else normal && negb (status =? 0))
  /\ DVIExport.error_message_ (DVIExport.process_exited normal status this)
     = DVIExport.error_message_ this
  /\ DVIExport.progress_ (DVIExport.process_exited normal status this)
     = DVIExport.progress_ this.
Proof.
  intros Hp. unfold DVIExport.process_exited, DVIExport.reports_failure.
  rewrite Hp. cbn. repeat split.
Qed.

(** X15: when a started export finishes, the failure that is reported is
    the message of its converter, the one about dvipdfm for the PDF export
    and the one about dvips for the PostScript export, and it is reported
    exactly when the child ended badly: with [DVIEXPORT_USE_QPROCESS] on a
    non-zero exit code, without it on a normal exit with non-zero status. *)
Theorem failure_report_names_converter (h : Host) (normal : bool)
    (status exit_code : Z) :
  let bad := if use_qprocess h then negb (exit_code =? 0)
             else normal && negb (status =? 0) in
  (forall (w w' : World) (this : DVIExport.t),
      DVIExportToPDF.new h w = (this, w') ->
      is_Some (DVIExport.process_ this) ->
      emitted w'
        (snd (DVIExport.finished_impl h exit_code
                (DVIExport.process_exited normal status this) w'))
      = (if bad then [Error Msg.dvipdfm_failed] else []) ++ [ExportFinished])
  /\ (forall (output_name : string) (options : list string) (w w' : World)
        (this : DVIExportToPS.t),
      DVIExportToPS.new h output_name options None w = (this, w') ->
      is_Some (DVIExport.process_ (DVIExportToPS.base this)) ->
      emitted w'
        (snd (DVIExportToPS.finished_impl h exit_code
                (DVIExportToPS.with_base
                   (DVIExport.process_exited normal status (DVIExportToPS.base this))
                   this) w'))
      = (if bad then [Error Msg.dvips_failed] else []) ++ [ExportFinished]).
Proof.
  intros bad. split.
  - intros w w' this Hnew [p Hp].
    destruct (finished_impl_events h exit_code
                (DVIExport.process_exited normal status this) w') as (Hem & _).
    rewrite Hem.
    destruct (process_exited_alive h normal status exit_code this p Hp)
      as (-> & -> & _).
    destruct (pdf_launched_state _ _ _ _ Hnew (ex_intro _ p Hp))
      as (dvi & _ & _ & _ & _ & Hthis & _).
    cbv zeta in Hthis. rewrite Hthis at 1. reflexivity.
  - intros output_name options w w' this Hnew [p Hp].
    rewrite ps_finished_events.
    cbn [DVIExportToPS.with_base DVIExportToPS.base DVIExportToPS.printer_].
    destruct (process_exited_alive h normal status exit_code _ p Hp)
      as (-> & -> & _).
    destruct (ps_launched_state _ _ _ _ _ _ _ Hnew (ex_intro _ p Hp))
      as (dvi & p' & d & _ & _ & _ & _ & _ & _ & _ & _ & Hmsg & _).
    destruct (ps_launched _ _ _ _ _ _ _ Hnew (ex_intro _ p Hp))
      as (_ & _ & _ & _ & _ & Hpr & _).
    rewrite Hpr, Hmsg. reflexivity.
Qed.

(** dvipdfm leaves the PDF export of the example with status 2. *)
Lemma failure_report_names_converter_witness :
  let w := Example.world Example.doc in
  let export := DVIExportToPDF.new Example.host w in
  emitted (snd export)
    (snd (DVIExport.finished_impl Example.host 0
            (DVIExport.process_exited true 2 (fst export)) (snd export)))
  = [Error Msg.dvipdfm_failed; ExportFinished].
Proof.
  intros w export.
  apply (proj1 (failure_report_names_converter Example.host true 2 0) w
           (snd export) (fst export) (surjective_pairing export)).
  eexists. reflexivity.
Defined.

(** X16: the finish handler keeps the progress dialog and the process
    object, hides the dialog and cuts its connection to the abort slot;
    it makes no dialog where there was none.  Since the process object is
    still there, output that arrives after the finish shows the dialog
    again, still disconnected; only an abort deletes it. *)
Theorem progress_dialog_after_finish (h : Host) (exit_code : Z)
    (this : DVIExport.t) (w : World) :
  let f := DVIExport.finished_impl h exit_code this w in
  DVIExport.process_ (fst f) = DVIExport.process_ this
  /\ (DVIExport.progress_ this = None -> DVIExport.progress_ (fst f) = None)
  /\ (forall d, DVIExport.progress_ this = Some d ->
        DVIExport.progress_ (fst f)
        = Some {| isVisible := false; totalSteps := totalSteps d;
                  labelText := labelText d; finished_connected := false |}
        /\ forall buffer,
             buffer <> EmptyString ->
             is_Some (DVIExport.process_ this) ->
             DVIExport.progress_
               (fst (DVIExport.output_receiver h buffer (fst f) (snd f)))
             = Some {| isVisible := true; totalSteps := totalSteps d;
                       labelText := labelText d; finished_connected := false |})
  /\ DVIExport.progress_ (fst (DVIExport.abort_process_impl (fst f) (snd f))) = None.
Proof.
  intros f. subst f. unfold DVIExport.finished_impl.
  split; [now destruct (DVIExport.progress_ this) |].
  split; [intros Hn; rewrite Hn; exact Hn |]. split; [| reflexivity].
  intros d Hd. rewrite Hd. cbn [fst snd DVIExport.with_progress DVIExport.progress_].
  split; [reflexivity |].
  intros buffer Hb [p Hp]. unfold DVIExport.output_receiver.
  apply isEmpty_false in Hb. rewrite Hb, andb_false_r.
  cbn [DVIExport.process_ DVIExport.progress_ DVIExport.with_progress].
  rewrite Hp. reflexivity.
Qed.

(** The dialog of the PDF export of the example after the finish. *)
Lemma progress_dialog_after_finish_witness :
  let w := Example.world Example.doc in
  let export := DVIExportToPDF.new Example.host w in
  let f := DVIExport.finished_impl Example.host 0 (fst export) (snd export) in
  DVIExport.progress_ (fst (DVIExport.output_receiver Example.host "late" (fst f) (snd f)))
  = Some {| isVisible := true; totalSteps := 2;
            labelText := "Using dvipdfm to export the file to PDF";
            finished_connected := false |}.
Proof.
  intros w export f.
  destruct (progress_dialog_after_finish Example.host 0 (fst export) (snd export))
    as (_ & _ & Hshown & _).
  destruct (Hshown {| isVisible := false; totalSteps := 2;
                      labelText := "Using dvipdfm to export the file to PDF";
                      finished_connected := true |} eq_refl) as (_ & Hlate).
  apply Hlate; [discriminate | eexists; reflexivity].
Defined.

(** ** The loop over the pages *)




(** ** The order of what a constructor does *)

Lemma start_events_shape (h : Host) (command : string) (args : list string)
    (wd : string) :
  exists after,
    start_events h command args wd = Spawn command args wd :: after
    /\ existsb is_Spawn after = false
    /\ existsb is_dialog after = false
    /\ existsb is_file_event after = false
    /\ existsb is_InfoDialog after = false.
Proof.
  unfold start_events. destruct (process_start h command args); eexists; repeat split.
Qed.

Lemma choice_events_shape (fs : FileSystem) (suggested filter out : string) :
  existsb is_Spawn (choice_events fs suggested filter out) = false
  /\ existsb is_file_event (choice_events fs suggested filter out) = false.
Proof. unfold choice_events. now destruct (exists_ fs out). Qed.

(** X18: a constructor that starts its converter spawns it once, and as
    the last thing it does: what the user is asked, the temporary copy of
    the PostScript export (made exactly when the rewriting decision asks
    for it) and the note in the info dialog all come before, and after it
    there is no question, no file and no second process. *)
Theorem spawn_comes_last (h : Host) :
  (forall (w w' : World) (this : DVIExport.t) (p : Process),
      DVIExportToPDF.new h w = (this, w') ->
      DVIExport.process_ this = Some p ->
      exists before after,
        emitted w w'
        = before ++ Spawn (command p) (args p) (workingDirectory p) :: after
        /\ existsb is_Spawn before = false
        /\ existsb is_InfoDialog before = true
        /\ existsb is_Spawn after = false
        /\ existsb is_dialog after = false)
  /\ (forall (output_name : string) (options : list string)
        (printer : option KPrinter) (w w' : World) (this : DVIExportToPS.t)
        (p : Process) (dvi : dvifile),
      DVIExportToPS.new h output_name options printer w = (this, w') ->
      DVIExport.process_ (DVIExportToPS.base this) = Some p ->
      dviFile (parent w) = Some dvi ->
      exists before after,
        emitted w w'
        = before ++ Spawn (command p) (args p) (workingDirectory p) :: after
        /\ existsb is_Spawn before = false
        /\ existsb is_InfoDialog before = true
        /\ existsb is_file_event before = DVIExportToPS.needs_rewrite dvi options
        /\ existsb is_Spawn after = false
        /\ existsb is_dialog after = false
        /\ existsb is_file_event after = false).
Proof.
  split.
  - intros w w' this p Hnew Hp.
    destruct (pdf_launched_state _ _ _ _ Hnew (ex_intro _ p Hp))
      as (dvi & _ & _ & _ & _ & Hthis & Hw).
    cbv zeta in *. subst this. cbn [DVIExport.process_] in Hp.
    inversion Hp; subst p; clear Hp. cbn [command args workingDirectory].
    rewrite Hw, emitted_after_events.
    match goal with
    | |- context [start_events ?a ?b ?c ?e] =>
        destruct (start_events_shape a b c e) as (after & -> & Hs & Hd & _)
    end.
    match goal with
    | |- context [?c ++ InfoDialog ?t ?b :: _] =>
        exists (c ++ [InfoDialog t b]), after
    end.
    split; [now rewrite <- app_assoc |].
    rewrite !existsb_app, (proj1 (choice_events_shape _ _ _ _)).
    cbn [existsb is_Spawn is_InfoDialog orb]. rewrite orb_true_r.
    repeat split; assumption.
  - intros output_name options printer w w' this p dvi Hnew Hp Hdvi.
    destruct (ps_launched _ _ _ _ _ _ _ Hnew (ex_intro _ p Hp))
      as (dvi' & evs & Hd & _ & _ & _ & Hevs & Hproc & _ & _ & Hem).
    cbv zeta in *. rewrite Hdvi in Hd. inversion Hd; subst dvi'; clear Hd.
    rewrite Hp in Hproc. inversion Hproc; subst p; clear Hproc.
    cbn [command args workingDirectory]. rewrite Hem.
    match goal with
    | |- context [start_events ?a ?b ?c ?e] =>
        destruct (start_events_shape a b c e) as (after & -> & Hs & Hq & Hf & _)
    end.
    match goal with
    | |- context [evs ++ ?r ++ InfoDialog ?t ?b :: _] =>
        exists (evs ++ r ++ [InfoDialog t b]), after
    end.
    split; [now rewrite <- !app_assoc |].
    assert (Hquiet : existsb is_Spawn evs = false
                     /\ existsb is_file_event evs = false).
    { destruct Hevs as [-> | ->]; [split; reflexivity | apply choice_events_shape]. }
    destruct Hquiet as [Hq1 Hq2].
    rewrite !existsb_app, Hq1, Hq2.
    destruct (DVIExportToPS.needs_rewrite dvi options);
      cbn [existsb is_Spawn is_InfoDialog is_file_event orb];
      rewrite ?orb_true_r; repeat split; assumption.
Qed.

(** The events of the PostScript export with options of the example. *)
Lemma spawn_comes_last_witness :
  let w := Example.world Example.doc in
  let r := DVIExportToPS.new Example.host "/home/u/out.ps" ["-pp"; "3"] None w in
  exists before after,
    emitted w (snd r)
    = before
      ++ Spawn "dvips" ["-z"; "-pp"; "3"; "/tmp/qt_temp.a1"; "-o"; "/home/u/out.ps"]
           "/home/u"
      :: after
    /\ existsb is_file_event before = true
    /\ existsb is_file_event after = false.
Proof.
  intros w r.
  destruct (proj2 (spawn_comes_last Example.host) "/home/u/out.ps" ["-pp"; "3"]
              None w (snd r) (fst r)
              {| command := "dvips";
                 args := ["-z"; "-pp"; "3"; "/tmp/qt_temp.a1"; "-o"; "/home/u/out.ps"];
                 workingDirectory := "/home/u";
                 normalExit := false; exitStatus := 0 |}
              Example.doc (surjective_pairing r) eq_refl eq_refl)
    as (before & after & Hem & _ & _ & Hfile & _ & _ & Hafter).
  exists before, after. auto.
Defined.

(** ** The silent checks *)

(** X19: a constructor returns without a trace, leaving the object as it
    was made and telling the user nothing, exactly when the renderer has
    no document, or the file of the document does not exist or is not
    readable, or, for the PostScript export, the page table is empty.
    Every other way out leaves at least a message or a dialog behind. *)
Theorem constructor_returns_untouched (h : Host) (w : World) :
  (DVIExportToPDF.new h w = (DVIExport.new, w)
   <-> forall dvi, dviFile (parent w) = Some dvi ->
                   exists_ (fs w) (filename dvi) && readable (fs w) (filename dvi)
                   = false)
  /\ (forall (output_name : string) (options : list string)
        (printer : option KPrinter),
      DVIExportToPS.new h output_name options printer w
      = (ps_ready printer EmptyString, w)
      <-> forall dvi, dviFile (parent w) = Some dvi ->
                      exists_ (fs w) (filename dvi) && readable (fs w) (filename dvi)
                      = false
                      \/ page_offset dvi = []).
Proof.
  split.
  - split.
    + intros Hnew. destruct (pdf_stopped _ _ _ _ Hnew eq_refl) as (_ & _ & Hcases).
      rewrite emitted_same in Hcases.
      destruct Hcases as [(_ & Hsrc) | (dvi & _ & _ & Hcases)]; [exact Hsrc |].
      cbv zeta in Hcases.
      destruct Hcases as [(_ & ?) | (_ & [(_ & ?) | (_ & _ & _ & ?)])]; discriminate.
    + intros Hsrc. unfold DVIExportToPDF.new.
      destruct (dviFile (parent w)) as [dvi |]; [| reflexivity].
      specialize (Hsrc dvi eq_refl). apply andb_false_iff in Hsrc.
      destruct Hsrc as [-> | ->]; cbn [negb orb]; rewrite ?orb_true_r; reflexivity.
  - intros output_name options printer. split.
    + intros Hnew.
      destruct (ps_stopped _ _ _ _ _ _ _ Hnew eq_refl) as (_ & _ & _ & _ & Hcases).
      rewrite emitted_same in Hcases.
      destruct Hcases as [(_ & _ & Hsrc) | (dvi & _ & _ & _ & Hcases)]; [exact Hsrc |].
      cbv zeta in Hcases.
      destruct Hcases
        as [(_ & _ & ?) | [(_ & _ & _ & ?)
                          | (_ & _ & _ & [(_ & ?) | (_ & _ & _ & ?)])]];
        discriminate.
    + intros Hsrc. unfold DVIExportToPS.new.
      destruct (dviFile (parent w)) as [dvi |]; [| reflexivity].
      destruct (Hsrc dvi eq_refl) as [Hfile | Htable].
      * apply andb_false_iff in Hfile.
        destruct Hfile as [-> | ->]; cbn [negb orb]; rewrite ?orb_true_r; reflexivity.
      * rewrite Htable.
        now destruct (negb (exists_ (fs w) (filename dvi))
                      || negb (readable (fs w) (filename dvi))).
Qed.

(** Without the file of the document nothing happens at all. *)
Lemma constructor_returns_untouched_witness :
  let w := Example.world_on ∅ Example.doc in
  DVIExportToPDF.new Example.host w = (DVIExport.new, w).
Proof.
  intros w.
  apply (proj2 (proj1 (constructor_returns_untouched Example.host w))).
  intros dvi Hdvi. inversion Hdvi; subst. reflexivity.
Defined.

(** ** The temporary file on every way to the end *)



